(** * University and course data scraper: model and properties

    A shallow embedding of [scraper.py] and [verify.py].

    - Python [str] values are sequences of Unicode code points ([pystr]).
    - The string operations that depend on the Unicode character database
      ([str.lower], [str.title], whitespace, the character classes of [re])
      and [urllib.parse.urljoin] come from Python's library, not from the
      repository: they are the fields of the class [PyText].  Every general
      property below holds for any instance; the instance [basic_latin] gives
      their values on the Basic Latin block and is used to run the functions
      on concrete pages.
    - A parsed page is a tree of elements and text nodes ([node]); the
      network is a function from a URL to the page it serves, or nothing
      when the fetch fails.
    - A data frame is the list of its rows, a cell being a string or
      missing (NaN). *)

From Stdlib Require Import String Ascii Numbers.DecimalString.
From Stdlib Require Import List NArith Bool Arith Lia.
Import ListNotations.

Set Implicit Arguments.

(* ================================================================== *)
(** ** Python strings *)
(* ================================================================== *)

Definition pystr := list N.

Definition pystr_eq_dec : forall a b : pystr, {a = b} + {a <> b} :=
  list_eq_dec N.eq_dec.

Definition pystr_eqb (a b : pystr) : bool :=
  if pystr_eq_dec a b then true else false.

(** Source literals are written as UTF-8 text and decoded to code points. *)
Module Utf8.

Definition cont (b : N) : N := N.land b 63.

Fixpoint decode (bs : list N) : pystr :=
  match bs with
  | [] => []
  | b0 :: r0 =>
    if (b0 <? 192)%N then b0 :: decode r0
    else match r0 with
    | [] => [b0]
    | b1 :: r1 =>
      if (b0 <? 224)%N
      then (N.shiftl (N.land b0 31) 6 + cont b1)%N :: decode r1
      else match r1 with
      | [] => [b0; b1]
      | b2 :: r2 =>
        if (b0 <? 240)%N
        then (N.shiftl (N.land b0 15) 12 + N.shiftl (cont b1) 6
              + cont b2)%N :: decode r2
        else match r2 with
        | [] => [b0; b1; b2]
        | b3 :: r3 =>
          (N.shiftl (N.land b0 7) 18 + N.shiftl (cont b1) 12
           + N.shiftl (cont b2) 6 + cont b3)%N :: decode r3
        end
      end
    end
  end.

Definition bytes (s : String.string) : list N :=
  map Ascii.N_of_ascii (String.list_ascii_of_string s).

End Utf8.

Definition u (s : String.string) : pystr := Utf8.decode (Utf8.bytes s).

(** [str(n)] for a non-negative integer. *)
Definition str_of_nat (n : nat) : pystr :=
  u (NilEmpty.string_of_uint (Nat.to_uint n)).

(** [s.startswith(p)] *)
Fixpoint startswith (s p : pystr) {struct p} : bool :=
  match p, s with
  | [], _ => true
  | _ :: _, [] => false
  | c :: p', d :: s' => N.eqb c d && startswith s' p'
  end.

(** [needle in hay] *)
Fixpoint contains (needle hay : pystr) : bool :=
  startswith hay needle ||
  match hay with
  | [] => false
  | _ :: hay' => contains needle hay'
  end.

(** [any(kw in s for kw in kws)] *)
Definition any_in (kws : list pystr) (s : pystr) : bool :=
  existsb (fun kw => contains kw s) kws.

(** [s.replace(a, b)] for a single character [a]. *)
Definition replace_char (a b : N) (s : pystr) : pystr :=
  map (fun c => if N.eqb c a then b else c) s.

(** The substring relation that [contains] decides. *)
Definition substring (needle hay : pystr) : Prop :=
  exists pre post, hay = pre ++ needle ++ post.

(** What Python's library supplies. *)
Class PyText := {
  str_lower : pystr -> pystr;          (* str.lower *)
  str_title : pystr -> pystr;          (* str.title *)
  isspace   : N -> bool;               (* str.isspace on one character, \s *)
  re_digit  : N -> bool;               (* \d *)
  re_word   : N -> bool;               (* \w *)
  re_ieq    : N -> N -> bool;          (* pattern character against text
                                          character under re.IGNORECASE *)
  urljoin   : pystr -> pystr -> pystr  (* urllib.parse.urljoin *)
}.

Definition NA : pystr := u "Not Available".

(* ================================================================== *)
(** ** Course records and the discipline classifier *)
(* ================================================================== *)

(** The dict built for each course, with its six keys. *)
Record course := mkCourse {
  Course_Name : pystr;
  Level       : pystr;
  Discipline  : pystr;
  Duration    : pystr;
  Fees        : pystr;
  Eligibility : pystr
}.

Definition discipline_map : list (pystr * pystr) :=
  [ (u "computer", u "Computer Science"); (u "engineering", u "Engineering");
    (u "law", u "Law"); (u "medicine", u "Medicine"); (u "medic", u "Medicine");
    (u "business", u "Business"); (u "management", u "Management");
    (u "mba", u "Management");
    (u "pharm", u "Pharmacy"); (u "nurs", u "Nursing");
    (u "architect", u "Architecture");
    (u "math", u "Mathematics"); (u "econom", u "Economics");
    (u "dent", u "Dentistry");
    (u "communi", u "Communication"); (u "history", u "History");
    (u "archaeol", u "Archaeology");
    (u "data science", u "Data Science"); (u "arts", u "Arts");
    (u "science", u "Sciences");
    (u "hotel", u "Hotel Management"); (u "commerce", u "Commerce") ].

(** The [for keyword, disc in discipline_map.items()] loop. *)
Fixpoint first_keyword (items : list (pystr * pystr)) (name_lower : pystr)
  : option pystr :=
  match items with
  | [] => None
  | (keyword, disc) :: rest =>
    if contains keyword name_lower then Some disc
    else first_keyword rest name_lower
  end.

Definition guess_discipline `{PyText} (name : pystr) : pystr :=
  let name_lower := str_lower name in
  match first_keyword discipline_map name_lower with
  | Some disc => disc
  | None => u "General"
  end.

(* ================================================================== *)
(** ** Padding a batch to five records *)
(* ================================================================== *)

Definition placeholder (label : pystr) (len_courses : nat) : course :=
  {| Course_Name := label ++ u " Course " ++ str_of_nat (len_courses + 1);
     Level := NA;
     Discipline := u "General";
     Duration := NA;
     Fees := NA;
     Eligibility := NA |}.

(** [while len(courses) < 5: courses.append(...)]; the loop runs at most
    five times, [pad_while_exit] below shows five rounds reach its exit. *)
Fixpoint pad_while (rounds : nat) (courses : list course) (label : pystr)
  : list course :=
  match rounds with
  | 0 => courses
  | S rounds' =>
    if length courses <? 5
    then pad_while rounds' (courses ++ [placeholder label (length courses)]) label
    else courses
  end.

Definition pad_courses (courses : list course) (label : pystr) : list course :=
  firstn 5 (pad_while 5 courses label).

(* ================================================================== *)
(** ** More string operations *)
(* ================================================================== *)

Section Strings.
Context `{PyText}.

Fixpoint lstrip (s : pystr) : pystr :=
  match s with
  | [] => []
  | c :: s' => if isspace c then lstrip s' else s
  end.

Definition rstrip (s : pystr) : pystr := rev (lstrip (rev s)).

(** [s.strip()] *)
Definition strip (s : pystr) : pystr := rstrip (lstrip s).

(** [s.split(sep)] for a one-character separator: never the empty list. *)
Fixpoint split (sep : N) (s : pystr) : list pystr :=
  match s with
  | [] => [[]]
  | c :: s' =>
    if N.eqb c sep then [] :: split sep s'
    else match split sep s' with
         | [] => [[c]]
         | seg :: segs => (c :: seg) :: segs
         end
  end.

(** [s.split()]: the maximal runs of non-blank characters. *)
Fixpoint split_ws_go (cur : pystr) (s : pystr) : list pystr :=
  match s with
  | [] => match cur with [] => [] | _ => [rev cur] end
  | c :: s' =>
    if isspace c
    then match cur with
         | [] => split_ws_go [] s'
         | _ => rev cur :: split_ws_go [] s'
         end
    else split_ws_go (c :: cur) s'
  end.

Definition split_ws (s : pystr) : list pystr := split_ws_go [] s.

(** [sep.join(parts)] *)
Fixpoint join (sep : pystr) (parts : list pystr) : pystr :=
  match parts with
  | [] => []
  | [p] => p
  | p :: rest => p ++ sep ++ join sep rest
  end.

End Strings.

(* ================================================================== *)
(** ** Parsed pages *)
(* ================================================================== *)

(** The tree BeautifulSoup builds: text nodes and elements with their
    attributes, children in document order. *)
#[local] Unset Elimination Schemes.
Inductive node :=
| Text (s : pystr)
| Elem (tag : pystr) (attrs : list (pystr * pystr)) (children : list node).
#[local] Set Elimination Schemes.

Module Soup.

(** Every node below [n], in document order. *)
Fixpoint descendants (n : node) : list node :=
  match n with
  | Text _ => []
  | Elem _ _ cs =>
    (fix go (cs : list node) : list node :=
       match cs with
       | [] => []
       | c :: cs' => c :: descendants c ++ go cs'
       end) cs
  end.

(** Every text string below [n], in document order. *)
Fixpoint strings (n : node) : list pystr :=
  match n with
  | Text s => [s]
  | Elem _ _ cs =>
    (fix go (cs : list node) : list pystr :=
       match cs with
       | [] => []
       | c :: cs' => strings c ++ go cs'
       end) cs
  end.

Definition tag_of (n : node) : option pystr :=
  match n with Text _ => None | Elem t _ _ => Some t end.

(** [tag.get(name)] *)
Fixpoint lookup (name : pystr) (attrs : list (pystr * pystr)) : option pystr :=
  match attrs with
  | [] => None
  | (k, v) :: rest => if pystr_eqb k name then Some v else lookup name rest
  end.

Definition attr (name : pystr) (n : node) : option pystr :=
  match n with Text _ => None | Elem _ a _ => lookup name a end.

Definition has_tag (names : list pystr) (n : node) : bool :=
  match tag_of n with
  | Some t => existsb (pystr_eqb t) names
  | None => false
  end.

(** [tag.find_all([names])] *)
Definition find_all (names : list pystr) (n : node) : list node :=
  filter (has_tag names) (descendants n).

(** [tag.find_all(name, attr=True)] *)
Definition find_all_with (name attr_name : pystr) (n : node) : list node :=
  filter (fun e => match attr attr_name e with Some _ => true | None => false end)
         (find_all [name] n).

(** [tag.find(name)] *)
Definition find (name : pystr) (n : node) : option node :=
  hd_error (find_all [name] n).

(** [tag.find(name, {'id': value})] *)
Definition find_id (name value : pystr) (n : node) : option node :=
  hd_error (filter (fun e => match attr (u "id") e with
                             | Some v => pystr_eqb v value
                             | None => false
                             end) (find_all [name] n)).

Section Text.
Context `{PyText}.

(** [tag.find(name, {'class': value})]: the class attribute is a list of
    blank-separated tokens, matched when one of them or the whole
    attribute is [value]. *)
Definition find_class (name value : pystr) (n : node) : option node :=
  hd_error (filter (fun e => match attr (u "class") e with
                             | Some v => pystr_eqb v value
                                         || existsb (pystr_eqb value) (split_ws v)
                             | None => false
                             end) (find_all [name] n)).

(** [tag.text] *)
Definition text (n : node) : pystr := concat (strings n).

Definition stripped_strings (n : node) : list pystr :=
  filter (fun s => negb (Nat.eqb (length s) 0)) (map strip (strings n)).

(** [tag.get_text(sep, strip=True)] *)
Definition get_text_strip (sep : pystr) (n : node) : pystr :=
  join sep (stripped_strings n).

End Text.

(** [soup.select("a[href*='part']")] *)
Definition select_a_href_contains (part : pystr) (n : node) : list node :=
  filter (fun e => match attr (u "href") e with
                   | Some h => contains part h
                   | None => false
                   end) (find_all [u "a"] n).

End Soup.

(* ================================================================== *)
(** ** Regular expressions *)
(* ================================================================== *)

(** The patterns of [extract_details_from_page] are all compiled with
    [re.IGNORECASE] and all have the shape [before(group 1)after]; they are
    kept as data and run by a backtracking matcher that tries alternatives
    left to right and repetitions greedily, as Python's [re] does. *)
Module Re.

Inductive item :=
| Chr (c : N)              (* a character *)
| Range (lo hi : N)        (* lo-hi *)
| Digit                    (* \d *)
| Space                    (* \s *)
| Word.                    (* \w *)

Inductive regex :=
| Empty
| Lit (c : N)                                  (* one literal character *)
| In (items : list item)                       (* [...] *)
| NotIn (items : list item)                    (* [^...] *)
| Seq (r1 r2 : regex)
| Alt (r1 r2 : regex)                          (* r1|r2 *)
| Rep (lo : nat) (hi : option nat) (r : regex) (* r{lo,hi}, greedy *)
| Boundary.                                    (* \b *)

Record pattern := { before : regex; group1 : regex; after : regex }.

Definition star := Rep 0 None.
Definition plus := Rep 1 None.
Definition opt := Rep 0 (Some 1).

Fixpoint seq (rs : list regex) : regex :=
  match rs with
  | [] => Empty
  | [r] => r
  | r :: rs' => Seq r (seq rs')
  end.

(** [r|r1|...|rn] *)
Fixpoint alt (r : regex) (rs : list regex) : regex :=
  match rs with
  | [] => r
  | r' :: rs' => Alt r (alt r' rs')
  end.

(** A run of literal characters. *)
Definition lit (s : String.string) : regex := seq (map Lit (u s)).
Definition chars (s : String.string) : list item := map Chr (u s).

(** The code points [lo], [lo+1], ..., [hi]. *)
Definition range (lo hi : N) : list N :=
  map (fun i => (lo + N.of_nat i)%N) (List.seq 0 (N.to_nat (hi + 1 - lo))).

(** A position in the text: the character before it and what follows. *)
Definition pos : Type := option N * pystr.

Section Matcher.
Context `{PyText}.

Definition item_matches (i : item) (c : N) : bool :=
  match i with
  | Chr p => re_ieq p c
  | Range lo hi => existsb (fun p => re_ieq p c) (range lo hi)
  | Digit => re_digit c
  | Space => isspace c
  | Word => re_word c
  end.

Definition in_class (items : list item) (c : N) : bool :=
  existsb (fun i => item_matches i c) items.

Definition one (ok : N -> bool) (A : Type) (p : pos) (k : pos -> option A)
  : option A :=
  match snd p with
  | c :: rest => if ok c then k (Some c, rest) else None
  | [] => None
  end.

Definition is_word (c : option N) : bool :=
  match c with Some c => re_word c | None => false end.

Definition below (hi : option nat) (count : nat) : bool :=
  match hi with Some h => count <? h | None => true end.

(** [rmatch r p k]: match [r] at [p] and continue with [k]; [None] makes
    the matcher backtrack.  A repetition runs at most once per remaining
    character, every round having to consume one. *)
Fixpoint rmatch (A : Type) (r : regex) (p : pos) (k : pos -> option A)
  {struct r} : option A :=
  match r with
  | Empty => k p
  | Lit c => one (re_ieq c) p k
  | In items => one (in_class items) p k
  | NotIn items => one (fun c => negb (in_class items c)) p k
  | Seq r1 r2 => rmatch r1 p (fun p' => rmatch r2 p' k)
  | Alt r1 r2 =>
    match rmatch r1 p k with
    | Some a => Some a
    | None => rmatch r2 p k
    end
  | Rep lo hi r1 =>
    (fix loop (rounds count : nat) (p : pos) {struct rounds} : option A :=
       let stop := if lo <=? count then k p else None in
       match rounds with
       | 0 => stop
       | S rounds' =>
         if below hi count
         then match rmatch r1 p
                      (fun p' => if length (snd p') <? length (snd p)
                                 then loop rounds' (S count) p'
                                 else None) with
              | Some a => Some a
              | None => stop
              end
         else stop
       end) (length (snd p)) 0 p
  | Boundary =>
    if xorb (is_word (fst p)) (is_word (hd_error (snd p))) then k p else None
  end.

(** The text of group 1 when the pattern matches at [p]. *)
Definition match_at (pat : pattern) (p : pos) : option pystr :=
  rmatch (before pat) p (fun p1 =>
  rmatch (group1 pat) p1 (fun p2 =>
  rmatch (after pat) p2 (fun _ =>
    Some (firstn (length (snd p1) - length (snd p2)) (snd p1))))).

Fixpoint search_from (pat : pattern) (prev : option N) (rest : pystr)
  : option pystr :=
  match match_at pat (prev, rest) with
  | Some g => Some g
  | None =>
    match rest with
    | [] => None
    | c :: rest' => search_from pat (Some c) rest'
    end
  end.

(** [pat.search(text)] followed by [m.group(1)] *)
Definition search (pat : pattern) (text : pystr) : option pystr :=
  search_from pat None text.

(** The first pattern of the list that matches, as the [for pat in ...]
    loops with their [break] find it. *)
Fixpoint first_match (pats : list pattern) (text : pystr) : option pystr :=
  match pats with
  | [] => None
  | pat :: rest =>
    match search pat text with
    | Some g => Some g
    | None => first_match rest text
    end
  end.

End Matcher.

End Re.

(* ================================================================== *)
(** ** The field extractor *)
(* ================================================================== *)

Module Patterns.
Import Re.

Definition d : regex := In [Digit].
Definition s : regex := In [Space].
Definition dot : regex := Lit 46.
Definition not_dot (lo hi : nat) : regex := Rep lo (Some hi) (NotIn [Chr 46]).
(** [\d+(?:\.\d+)?] *)
Definition number : regex := Seq (plus d) (opt (Seq dot (plus d))).
(** [word s?] *)
Definition plural (w : String.string) : regex := Seq (lit w) (opt (lit "s")).
(** [[:\s]*] *)
Definition colon_space : regex := star (In (chars ":" ++ [Space])).
(** [a[- ]?b] *)
Definition hyphenated (a b : String.string) : regex :=
  seq [lit a; opt (In (chars "- ")); lit b].

Definition dur_patterns : list pattern :=
  [ {| before := Seq (lit "duration") colon_space;
       group1 := seq [number; star s;
                      alt (plural "year") [plural "month"; plural "semester"]];
       after := Empty |};
    {| before := Empty;
       group1 := seq [number; star s; alt (plural "year") [plural "month"]];
       after := Seq (star s)
                    (alt (hyphenated "full" "time")
                         [hyphenated "part" "time"; lit "programme";
                          lit "program"; lit "course"]) |};
    {| before := Empty;
       group1 := seq [plus d; star s; alt (plural "year") [plural "month"]];
       after := s |} ].

(** [[£$€₹]\s*[\d,]{3,}(?:\.\d+)?] *)
Definition amount : regex :=
  seq [In (chars "£$€₹"); star s; Rep 3 None (In [Digit; Chr 44]);
       opt (Seq dot (plus d))].

Definition fee_patterns : list pattern :=
  [ {| before := Seq (alt (lit "tuition") [lit "fee"; lit "cost"]) (not_dot 0 50);
       group1 := amount;
       after := Empty |};
    {| before := Empty;
       group1 := amount;
       after := Seq (star s)
                    (alt (seq [lit "per"; star s;
                               alt (lit "annum") [lit "year"; lit "semester"]])
                         [lit "tuition"; lit "fee"]) |};
    {| before := Empty; group1 := amount; after := Empty |} ].

Definition level_pat : pattern :=
  {| before := Boundary;
     group1 :=
       alt (seq [lit "bachelor"; opt (lit "'"); opt (lit "s")])
           [ seq [lit "master"; opt (lit "'"); opt (lit "s")];
             lit "undergraduate"; lit "postgraduate"; lit "doctoral";
             seq [lit "ph"; opt dot; lit "d"];
             lit "diploma";
             seq [lit "professional"; star s; lit "graduate"];
             seq [lit "juris"; star s; lit "doctor"];
             seq [lit "doctor"; star s; lit "of"; star s; lit "medicine"] ];
     after := Boundary |}.

Definition elig_patterns : list pattern :=
  [ {| before :=
         Seq (alt (Seq (lit "eligib") (plus (In [Word])))
                  [ seq [lit "entry"; star s; lit "requirement"];
                    seq [lit "admission"; star s; lit "requirement"] ])
             colon_space;
       group1 := not_dot 10 120;
       after := Empty |};
    {| before :=
         Seq (alt (seq [lit "applicant"; opt (lit "s"); star s;
                        alt (lit "must") [lit "should"; lit "need"]])
                  [ seq [lit "minimum"; star s; lit "qualification"] ])
             colon_space;
       group1 := not_dot 10 120;
       after := Empty |};
    {| before := Empty;
       group1 := seq [lit "A"; opt (In (chars "*"));
                      Rep 2 (Some 3) (In [Range 65 90]); star s;
                      alt (seq [lit "at"; star s; lit "A";
                                opt (In (chars "- ")); lit "Level"])
                          [lit "including"];
                      not_dot 5 80];
       after := Empty |};
    {| before := Empty;
       group1 := seq [lit "10"; lit "+"; lit "2"; star s; not_dot 5 80];
       after := Empty |} ].

End Patterns.

(** The dict [extract_details_from_page] returns: only the keys found. *)
Record details := mkDetails {
  found_Duration    : option pystr;
  found_Fees        : option pystr;
  found_Level       : option pystr;
  found_Eligibility : option pystr
}.

Definition no_details : details := mkDetails None None None None.

Section Extractor.
Context `{PyText}.

Definition extract_details_from_text (full_text : pystr) : details :=
  {| found_Duration :=
       option_map (fun g => str_title (strip g))
                  (Re.first_match Patterns.dur_patterns full_text);
     found_Fees :=
       option_map strip (Re.first_match Patterns.fee_patterns full_text);
     found_Level :=
       option_map (fun g => str_title (strip g))
                  (Re.search Patterns.level_pat full_text);
     found_Eligibility :=
       option_map (fun g => firstn 150 (strip g))
                  (Re.first_match Patterns.elig_patterns full_text) |}.

Definition extract_details_from_page (soup : option node) : details :=
  match soup with
  | None => no_details
  | Some soup =>
    match Soup.find (u "body") soup with
    | None => no_details
    | Some body =>
      extract_details_from_text (Soup.get_text_strip (u " ") body)
    end
  end.

(** The [for tag in ['h1', 'h2']] loop. *)
Fixpoint first_heading (tags : list pystr) (soup : node) : option pystr :=
  match tags with
  | [] => None
  | tag :: rest =>
    match Soup.find tag soup with
    | Some el =>
      let text := replace_char 10 32 (Soup.get_text_strip [] el) in
      if (5 <? length text) && (length text <? 120) then Some text
      else first_heading rest soup
    | None => first_heading rest soup
    end
  end.

Definition extract_course_name (soup : option node) : option pystr :=
  match soup with
  | None => None
  | Some soup => first_heading [u "h1"; u "h2"] soup
  end.

End Extractor.

(* ================================================================== *)
(** ** The Basic Latin instance *)
(* ================================================================== *)

Module Latin.

Definition is_upper (c : N) : bool := (65 <=? c)%N && (c <=? 90)%N.
Definition is_lower (c : N) : bool := (97 <=? c)%N && (c <=? 122)%N.
Definition is_digit (c : N) : bool := (48 <=? c)%N && (c <=? 57)%N.
Definition cased (c : N) : bool := is_upper c || is_lower c.
Definition lower (c : N) : N := if is_upper c then (c + 32)%N else c.
Definition upper (c : N) : N := if is_lower c then (c - 32)%N else c.
Definition word (c : N) : bool := cased c || is_digit c || N.eqb c 95.

(** Python's white space: these are all the code points of Unicode for
    which [str.isspace] holds. *)
Definition space (c : N) : bool :=
  ((9 <=? c)%N && (c <=? 13)%N) || ((28 <=? c)%N && (c <=? 32)%N)
  || existsb (N.eqb c) [133; 160; 5760; 8232; 8233; 8239; 8287; 12288]%N
  || ((8192 <=? c)%N && (c <=? 8202)%N).

(** [str.title]: a cased character is put in upper case after an uncased
    one and in lower case after a cased one. *)
Fixpoint title_go (prev_cased : bool) (s : pystr) : pystr :=
  match s with
  | [] => []
  | c :: s' =>
    (if cased c then (if prev_cased then lower c else upper c) else c)
    :: title_go (cased c) s'
  end.

(** [urljoin(base, url)] is [url] itself when [url] is absolute, the
    only case the pages below need. *)
Definition join_absolute (base url : pystr) : pystr := url.

End Latin.

#[export] Instance basic_latin : PyText :=
  {| str_lower := map Latin.lower;
     str_title := Latin.title_go false;
     isspace := Latin.space;
     re_digit := Latin.is_digit;
     re_word := Latin.word;
     re_ieq := fun p c => N.eqb (Latin.lower p) (Latin.lower c);
     urljoin := Latin.join_absolute |}.

(* ================================================================== *)
(** ** Fetching and scraping course pages *)
(* ================================================================== *)

(** What [requests.get] followed by the HTML parser yields for a URL and a
    [verify] flag; [None] when either raises. *)
Definition web := pystr -> bool -> option node.

Definition default_course (fallback_name : pystr) : course :=
  {| Course_Name := fallback_name;
     Level := NA; Discipline := NA; Duration := NA; Fees := NA;
     Eligibility := NA |}.

Definition truthy (s : pystr) : bool := negb (Nat.eqb (length s) 0).

Definition get_or (d : pystr) (o : option pystr) : pystr :=
  match o with Some v => v | None => d end.

Section Scraping.
Context `{PyText}.
Variable internet : web.

(** The [try] block of [get_soup] succeeds with the parsed page, the
    [except] branch returns [None]. *)
Definition get_soup (url : pystr) (verify : bool) : option node :=
  internet url verify.

Definition scrape_course_page (url fallback_name : pystr) (verify : bool)
  : course :=
  let soup := get_soup url verify in
  let course := default_course fallback_name in
  match soup with
  | None => course
  | Some _ =>
    let name :=
      match extract_course_name soup with
      | Some page_name =>
        if truthy page_name then page_name else Course_Name course
      | None => Course_Name course
      end in
    let details := extract_details_from_page soup in
    {| Course_Name := name;
       Level := get_or (Level course) (found_Level details);
       Discipline := guess_discipline name;
       Duration := get_or (Duration course) (found_Duration details);
       Fees := get_or (Fees course) (found_Fees details);
       Eligibility := get_or (Eligibility course) (found_Eligibility details) |}
  end.

(** The [for link in links] loop of [discover_and_scrape]. *)
Fixpoint scrape_links (base_url : pystr) (verify : bool) (max_courses : nat)
         (links : list node) (courses : list course) (seen_urls : list pystr)
  : list course :=
  match links with
  | [] => courses
  | link :: rest =>
    if max_courses <=? length courses then courses
    else
      let href := get_or [] (Soup.attr (u "href") link) in
      let text := Soup.get_text_strip [] link in
      if negb (truthy href) || (length text <? 3)
      then scrape_links base_url verify max_courses rest courses seen_urls
      else
        let full_url :=
          if startswith href (u "http") then href else urljoin base_url href in
        if existsb (pystr_eqb full_url) seen_urls
        then scrape_links base_url verify max_courses rest courses seen_urls
        else scrape_links base_url verify max_courses rest
               (courses ++ [scrape_course_page full_url text verify])
               (full_url :: seen_urls)
  end.

(** [link_part] stands for the selector [a[href*='link_part']], the one
    form of selector the adapters pass. *)
Definition discover_and_scrape (listing_url link_part : pystr)
           (base_url : option pystr) (verify : bool) (max_courses : nat)
  : list course :=
  let base_url := match base_url with Some b => b | None => listing_url end in
  match get_soup listing_url verify with
  | None => []
  | Some soup =>
    scrape_links base_url verify max_courses
                 (Soup.select_a_href_contains link_part soup) [] []
  end.

Definition extract_courses_oxford : list course :=
  pad_courses
    (discover_and_scrape
       (u "https://www.ox.ac.uk/admissions/undergraduate/courses/course-listing")
       (u "/courses/course-listing/")
       (Some (u "https://www.ox.ac.uk")) true 5)
    (u "Oxford").

End Scraping.

(* ================================================================== *)
(** ** The text-scan adapters *)
(* ================================================================== *)

Section Adapters.
Context `{PyText}.
Variable internet : web.

(** *** Jamia Millia Islamia *)

Definition programme_keywords : list pystr :=
  map u [ "b.tech"; "m.tech"; "b.sc"; "m.sc"; "mba"; "bds"; "b.arch";
          "diploma"; "civil engineering"; "mechanical engineering";
          "electrical engineering"; "computer engineering";
          "electronics"; "environmental"; "aeronautic" ]%string.

Definition jmi_level (text_lower : pystr) : pystr :=
  if any_in (map u ["m.tech"; "m.sc"; "master"; "mba"]%string) text_lower
  then u "Master's"
  else if contains (u "ph.d") text_lower then u "Doctoral"
  else if contains (u "diploma") text_lower then u "Diploma"
  else u "Bachelor's".

Definition jmi_course (text text_lower : pystr) : course :=
  {| Course_Name := text;
     Level := jmi_level text_lower;
     Discipline := guess_discipline text;
     Duration := if contains (u "b.tech") text_lower
                 then u "4 Years (8 Semesters)" else NA;
     Fees := NA;
     Eligibility := NA |}.

(** The [for tag in fet_soup.find_all([...])] loop. *)
Fixpoint jmi_scan (tags : list node) (courses : list course)
         (seen : list pystr) : list course :=
  match tags with
  | [] => courses
  | tag :: rest =>
    let text := Soup.get_text_strip [] tag in
    if (length text <? 8) || (100 <? length text)
    then jmi_scan rest courses seen
    else
      let text_lower := str_lower text in
      if any_in programme_keywords text_lower
      then
        let fresh := negb (existsb (pystr_eqb text) seen) in
        let courses' :=
          if fresh then courses ++ [jmi_course text text_lower] else courses in
        let seen' := if fresh then text :: seen else seen in
        if 5 <=? length courses' then courses'
        else jmi_scan rest courses' seen'
      else jmi_scan rest courses seen
  end.

(** [if key in details and c[key] == 'Not Available': c[key] = details[key]]
    for the keys Fees and Eligibility. *)
Definition fill_from (dt : details) (c : course) : course :=
  let fill (found : option pystr) (old : pystr) :=
    match found with
    | Some v => if pystr_eqb old NA then v else old
    | None => old
    end in
  {| Course_Name := Course_Name c;
     Level := Level c;
     Discipline := Discipline c;
     Duration := Duration c;
     Fees := fill (found_Fees dt) (Fees c);
     Eligibility := fill (found_Eligibility dt) (Eligibility c) |}.

(** The [for url in extra_urls] loop. *)
Fixpoint jmi_extra (urls : list pystr) (courses : list course) : list course :=
  match urls with
  | [] => courses
  | url :: rest =>
    if 5 <=? length courses then courses
    else
      let course := scrape_course_page internet url (u "JMI Programme") false in
      if negb (pystr_eqb (Course_Name course) (u "JMI Programme"))
      then jmi_extra rest (courses ++ [course])
      else jmi_extra rest courses
  end.

Definition extract_courses_jmi : list course :=
  let fet_soup := get_soup internet (u "https://www.jmi.ac.in/fet") false in
  let courses :=
    match fet_soup with
    | None => []
    | Some soup =>
      let courses :=
        jmi_scan (Soup.find_all (map u ["li"; "h2"; "h3"; "h4"; "h5"; "h6";
                                        "p"; "strong"; "b"]%string) soup)
                 [] [] in
      map (fill_from (extract_details_from_page fet_soup)) courses
    end in
  let extra_urls := map u [ "https://www.jmi.ac.in/fdn";
                            "https://www.jmi.ac.in/fae";
                            "https://www.jmi.ac.in/ajkmcrc" ]%string in
  pad_courses (jmi_extra extra_urls courses) (u "JMI").

(** *** Jamia Hamdard *)

Definition course_keywords : list pystr :=
  map u [ "b.pharm"; "d.pharm"; "b.tech"; "m.tech"; "mba"; "bba"; "b.com";
          "b.sc"; "m.sc"; "ba.ll.b"; "ll.m"; "ph.d"; "bachelor"; "master";
          "diploma"; "nursing"; "hotel management"; "bms" ]%string.

Definition skip_keywords : list pystr :=
  map u [ "to offer"; "to provide"; "to develop"; "to use";
          "ambassador"; "research"; "vision"; "mission" ]%string.

Definition hamdard_level (text_lower : pystr) : pystr :=
  if any_in (map u ["m.tech"; "m.sc"; "master"; "mba"; "ll.m"]%string) text_lower
  then u "Master's"
  else if contains (u "ph.d") text_lower then u "Doctoral"
  else u "Bachelor's".

Definition hamdard_course (page_details : details) (text text_lower : pystr)
  : course :=
  {| Course_Name := text;
     Level := hamdard_level text_lower;
     Discipline := guess_discipline text;
     Duration := get_or NA (found_Duration page_details);
     Fees := get_or NA (found_Fees page_details);
     Eligibility := get_or NA (found_Eligibility page_details) |}.

(** Step 1: the [for a in schools_soup.find_all('a', href=True)] loop;
    a school link is the pair of its url and its name. *)
Fixpoint school_links_of (anchors : list node) (seen_hrefs : list pystr)
  : list (pystr * pystr) :=
  match anchors with
  | [] => []
  | a :: rest =>
    let href := get_or [] (Soup.attr (u "href") a) in
    let text := Soup.get_text_strip [] a in
    let href_lower := str_lower href in
    if (contains (u "school-of") href_lower || contains (u "institute") href_lower)
       && contains (u "jamiahamdard.ac.in") href_lower
       && negb (existsb (pystr_eqb href) seen_hrefs)
       && (5 <? length text)
    then (href, text) :: school_links_of rest (href :: seen_hrefs)
    else school_links_of rest seen_hrefs
  end.

(** Step 2, inner loop: the tags of one school page. *)
Fixpoint hamdard_scan (page_details : details) (tags : list node)
         (courses : list course) : list course :=
  match tags with
  | [] => courses
  | tag :: rest =>
    if 5 <=? length courses then courses
    else
      let text := Soup.get_text_strip [] tag in
      let text_lower := str_lower text in
      if (5 <? length text) && (length text <? 80)
         && any_in course_keywords text_lower
      then
        if any_in skip_keywords text_lower
        then hamdard_scan page_details rest courses
        else if negb (existsb (fun c => pystr_eqb (Course_Name c) text) courses)
        then hamdard_scan page_details rest
               (courses ++ [hamdard_course page_details text text_lower])
        else hamdard_scan page_details rest courses
      else hamdard_scan page_details rest courses
  end.

(** Step 2, outer loop: the school pages. *)
Fixpoint hamdard_schools (school_links : list (pystr * pystr))
         (courses : list course) : list course :=
  match school_links with
  | [] => courses
  | (url, _) :: rest =>
    if 5 <=? length courses then courses
    else
      match get_soup internet url false with
      | None => hamdard_schools rest courses
      | Some soup =>
        hamdard_schools rest
          (hamdard_scan (extract_details_from_page (Some soup))
             (Soup.find_all (map u ["li"; "h3"; "h4"; "h5"; "h6";
                                    "strong"; "b"]%string) soup)
             courses)
      end
  end.

Definition extract_courses_jamia_hamdard : list course :=
  let schools_soup :=
    get_soup internet (u "https://www.jamiahamdard.ac.in/new-school313") false in
  let school_links :=
    match schools_soup with
    | None => []
    | Some soup =>
      school_links_of (Soup.find_all_with (u "a") (u "href") soup) []
    end in
  pad_courses (hamdard_schools school_links []) (u "Jamia Hamdard").

(** *** Cambridge *)

Definition cambridge_listing : pystr :=
  u "https://www.undergraduate.study.cam.ac.uk/courses/search".

(** The [for a in soup.find_all('a', href=True)] loop; every course is kept
    with the url recorded under its key [_url]. *)
Fixpoint cambridge_scan (anchors : list node) (courses : list (pystr * course))
  : list (pystr * course) :=
  match anchors with
  | [] => courses
  | a :: rest =>
    if 5 <=? length courses then courses
    else
      let href := get_or [] (Soup.attr (u "href") a) in
      let text := Soup.get_text_strip [] a in
      if contains (u "/courses/") href && (5 <? length text)
         && any_in (map u ["-ba-"; "-bsc-"; "-meng-"; "-hons"; "-mmath";
                           "-msci"]%string) (str_lower href)
      then
        let full_url :=
          if startswith href (u "http") then href
          else urljoin cambridge_listing href in
        if negb (existsb (fun c => pystr_eqb (fst c) full_url) courses)
        then cambridge_scan rest
               (courses ++ [(full_url, scrape_course_page internet full_url text true)])
        else cambridge_scan rest courses
      else cambridge_scan rest courses
  end.

Definition extract_courses_cambridge : list course :=
  let courses :=
    match get_soup internet cambridge_listing true with
    | None => []
    | Some soup => cambridge_scan (Soup.find_all_with (u "a") (u "href") soup) []
    end in
  pad_courses (map snd courses) (u "Cambridge").

(** *** Harvard *)

Definition subject_keywords : list pystr :=
  map u [ "science"; "math"; "engineer"; "history"; "econom"; "computer";
          "physic"; "chemi"; "biolog"; "literature"; "philosophy"; "politic";
          "psycholog"; "sociolog"; "statistic"; "linguist"; "music" ]%string.

Definition concentration (title : pystr) : course :=
  {| Course_Name := u "Concentration in " ++ title;
     Level := u "Bachelor's";
     Discipline := guess_discipline title;
     Duration := u "4 Years";
     Fees := NA;
     Eligibility := NA |}.

(** The three nested loops over the lists, their items and the links of an
    item; the state is the pair of [courses] and [seen]. *)
Fixpoint harvard_links (anchors : list node) (state : list course * list pystr)
  : list course * list pystr :=
  match anchors with
  | [] => state
  | a :: rest =>
    let title := strip (get_or [] (Soup.attr (u "title") a)) in
    if (length title <? 5) || (60 <? length title)
    then harvard_links rest state
    else
      let title_lower := str_lower title in
      if any_in subject_keywords title_lower
         && negb (existsb (pystr_eqb title) (snd state))
         && negb (contains (u "university") title_lower)
      then harvard_links rest (fst state ++ [concentration title], title :: snd state)
      else harvard_links rest state
  end.

Fixpoint harvard_items (items : list node) (state : list course * list pystr)
  : list course * list pystr :=
  match items with
  | [] => state
  | li :: rest =>
    if 5 <=? length (fst state) then state
    else harvard_items rest
           (harvard_links (Soup.find_all_with (u "a") (u "title") li) state)
  end.

Fixpoint harvard_lists (lists : list node) (state : list course * list pystr)
  : list course * list pystr :=
  match lists with
  | [] => state
  | ul :: rest =>
    if 5 <=? length (fst state) then state
    else harvard_lists rest (harvard_items (Soup.find_all [u "li"] ul) state)
  end.

(** [if c['Fees'] == 'Not Available': c['Fees'] = details['Fees']] *)
Definition with_fees (fees : pystr) (c : course) : course :=
  {| Course_Name := Course_Name c;
     Level := Level c;
     Discipline := Discipline c;
     Duration := Duration c;
     Fees := if pystr_eqb (Fees c) NA then fees else Fees c;
     Eligibility := Eligibility c |}.

Definition extract_courses_harvard : list course :=
  let courses :=
    match get_soup internet (u "https://en.wikipedia.org/wiki/Harvard_College") true with
    | None => []
    | Some wiki_soup =>
      fst (harvard_lists (Soup.find_all [u "ul"] wiki_soup) ([], []))
    end in
  let fee_soup :=
    get_soup internet
      (u "https://college.harvard.edu/financial-aid/how-aid-works/cost-attendance")
      true in
  let courses :=
    match fee_soup with
    | None => courses
    | Some _ =>
      match found_Fees (extract_details_from_page fee_soup) with
      | Some fees => map (with_fees fees) courses
      | None => courses
      end
    end in
  pad_courses courses (u "Harvard").

End Adapters.

(* ================================================================== *)
(** ** University information *)
(* ================================================================== *)

Record uni_info := mkInfo {
  University_Name : pystr;
  Country         : pystr;
  City            : pystr;
  Website         : pystr
}.

Definition fallbacks : list (pystr * (pystr * pystr)) :=
  [ (u "Harvard", (u "United States", u "Cambridge"));
    (u "Oxford", (u "United Kingdom", u "Oxford"));
    (u "Cambridge", (u "United Kingdom", u "Cambridge"));
    (u "Islamia", (u "India", u "New Delhi"));
    (u "Hamdard", (u "India", u "New Delhi")) ].

Section Resolver.
Context `{PyText}.
Variable internet : web.

(** [parts = [p.strip() for p in td.text.strip().split(',')]] *)
Definition location_parts (td_text : pystr) : list pystr :=
  map strip (split 44 (strip td_text)).

(** The two assignments under [if 'location' in header or 'city' in header]. *)
Definition set_location (td_text : pystr) (info : uni_info) : uni_info :=
  let parts := location_parts td_text in
  {| University_Name := University_Name info;
     Country := if 2 <=? length parts then last parts [] else Country info;
     City := hd [] parts;
     Website := Website info |}.

(** The assignment under [if 'website' in header]. *)
Definition set_website (td : node) (info : uni_info) : uni_info :=
  {| University_Name := University_Name info;
     Country := Country info;
     City := City info;
     Website := match Soup.find (u "a") td with
                | Some a_tag =>
                  match Soup.attr (u "href") a_tag with
                  | Some href => href
                  | None => strip (Soup.text td)
                  end
                | None => strip (Soup.text td)
                end |}.

(** The body of [for row in infobox.find_all('tr')]. *)
Definition infobox_row (info : uni_info) (row : node) : uni_info :=
  match Soup.find (u "th") row, Soup.find (u "td") row with
  | Some th, Some td =>
    let header := str_lower (strip (Soup.text th)) in
    let info :=
      if contains (u "location") header || contains (u "city") header
      then set_location (Soup.text td) info else info in
    if contains (u "website") header then set_website td info else info
  | _, _ => info
  end.

(** The [for key, (country, city) in fallbacks.items()] loop. *)
Fixpoint apply_fallbacks (table : list (pystr * (pystr * pystr)))
         (wiki_url : pystr) (info : uni_info) : uni_info :=
  match table with
  | [] => info
  | (key, (country, city)) :: rest =>
    if contains key wiki_url
    then {| University_Name := University_Name info;
            Country := country;
            City := city;
            Website := Website info |}
    else apply_fallbacks rest wiki_url info
  end.

(** The state of [info] when the infobox has been read. *)
Definition info_from_page (soup : node) : uni_info :=
  let info := mkInfo
    (match Soup.find_id (u "h1") (u "firstHeading") soup with
     | Some title => strip (Soup.text title)
     | None => NA
     end) NA NA NA in
  match Soup.find_class (u "table") (u "infobox") soup with
  | Some infobox => fold_left infobox_row (Soup.find_all [u "tr"] infobox) info
  | None => info
  end.

(** [None] stands for the empty dict returned when the fetch fails. *)
Definition fetch_wiki_university_info (wiki_url : pystr) : option uni_info :=
  match get_soup internet wiki_url true with
  | None => None
  | Some soup =>
    let info := info_from_page soup in
    Some (if pystr_eqb (Country info) NA
          then apply_fallbacks fallbacks wiki_url info
          else info)
  end.

End Resolver.

(* ================================================================== *)
(** ** Merging with the persisted dataset *)
(* ================================================================== *)

(** A cell of a data frame: a string, or missing (NaN). *)
Definition cell := option pystr.

Definition cell_eqb (a b : cell) : bool :=
  match a, b with
  | Some x, Some y => pystr_eqb x y
  | None, None => true
  | _, _ => false
  end.

Record university_row := mkUni {
  university_id   : cell;
  university_name : cell;
  country         : cell;
  city            : cell;
  website         : cell
}.

Record course_row := mkRow {
  course_id     : cell;
  of_university : cell;    (* the column university_id of the Courses sheet *)
  course_name   : cell;
  level         : cell;
  discipline    : cell;
  duration      : cell;
  fees          : cell;
  eligibility   : cell
}.

Record dataset := mkData {
  Universities : list university_row;
  Courses      : list course_row
}.

Section Frames.
Variable row : Type.

(** [df.drop_duplicates(subset=..., keep='last')]: a row is dropped when a
    later row agrees with it on the subset; [same] compares two rows on
    the subset, missing cells being equal to each other. *)
Fixpoint drop_duplicates (same : row -> row -> bool) (df : list row)
  : list row :=
  match df with
  | [] => []
  | r :: rest =>
    if existsb (same r) rest then drop_duplicates same rest
    else r :: drop_duplicates same rest
  end.

End Frames.

Definition same_university_name (a b : university_row) : bool :=
  cell_eqb (university_name a) (university_name b).

Definition same_course (a b : course_row) : bool :=
  cell_eqb (course_name a) (course_name b)
  && cell_eqb (of_university a) (of_university b).

Definition fill (c : cell) : cell :=
  match c with Some v => Some v | None => Some NA end.

(** [df.fillna("Not Available")] on the two sheets. *)
Definition fillna_uni (r : university_row) : university_row :=
  mkUni (fill (university_id r)) (fill (university_name r)) (fill (country r))
        (fill (city r)) (fill (website r)).

Definition fillna_course (r : course_row) : course_row :=
  mkRow (fill (course_id r)) (fill (of_university r)) (fill (course_name r))
        (fill (level r)) (fill (discipline r)) (fill (duration r))
        (fill (fees r)) (fill (eligibility r)).

(** The block of [main] from [output = ...] to the writer: [existing] is the
    content read from the file, [None] when there is no file or reading it
    raised; the result is what is written. *)
Definition merge_and_persist (existing : option dataset) (new : dataset)
  : dataset :=
  let df_uni :=
    match existing with
    | Some old => Universities old ++ Universities new
    | None => Universities new
    end in
  let df_courses :=
    match existing with
    | Some old => Courses old ++ Courses new
    | None => Courses new
    end in
  let df_uni := drop_duplicates same_university_name df_uni in
  let df_courses := drop_duplicates same_course df_courses in
  {| Universities := map fillna_uni df_uni;
     Courses := map fillna_course df_courses |}.

(** The rows [main] builds for one target: [uni_id] and [course_ids] are the
    identifiers drawn for it, [info] what the resolver returned and
    [courses] the adapter's batch. *)
Definition university_of (uni_id : pystr) (info : option uni_info)
  : university_row :=
  let get (f : uni_info -> pystr) :=
    Some (match info with Some i => f i | None => NA end) in
  mkUni (Some uni_id) (get University_Name) (get Country) (get City)
        (get Website).

Definition course_of (uni_id : pystr) (id_and_course : pystr * course)
  : course_row :=
  let c := snd id_and_course in
  mkRow (Some (fst id_and_course)) (Some uni_id) (Some (Course_Name c))
        (Some (Level c)) (Some (Discipline c)) (Some (Duration c))
        (Some (Fees c)) (Some (Eligibility c)).

(** The relational check of [verify_data]: no course row whose university_id
    is outside the set of the Universities sheet's ids. *)
Definition valid_uni_ids (d : dataset) : list cell :=
  map university_id (Universities d).

Definition invalid_relations (d : dataset) : list course_row :=
  filter (fun r => negb (existsb (cell_eqb (of_university r)) (valid_uni_ids d)))
         (Courses d).

Definition relational_integrity (d : dataset) : bool :=
  Nat.eqb (length (invalid_relations d)) 0.

(** The rows of one run of [main]'s loop over its targets: for each target
    the identifier drawn for the university, what the resolver returned, and
    the adapter's batch with the identifier drawn for each course. *)
Definition rows_of_run
           (targets : list (pystr * option uni_info * list (pystr * course)))
  : dataset :=
  {| Universities :=
       map (fun t => university_of (fst (fst t)) (snd (fst t))) targets;
     Courses :=
       flat_map (fun t => map (course_of (fst (fst t))) (snd t)) targets |}.


(** The targets of [main], in its order: the reference page and the batch
    of the adapter. *)
Definition targets `{PyText} (internet : web) : list (pystr * list course) :=
  [ (u "https://en.wikipedia.org/wiki/Jamia_Hamdard",
     extract_courses_jamia_hamdard internet);
    (u "https://en.wikipedia.org/wiki/Jamia_Millia_Islamia",
     extract_courses_jmi internet);
    (u "https://en.wikipedia.org/wiki/Harvard_University",
     extract_courses_harvard internet);
    (u "https://en.wikipedia.org/wiki/University_of_Cambridge",
     extract_courses_cambridge internet);
    (u "https://en.wikipedia.org/wiki/University_of_Oxford",
     extract_courses_oxford internet) ].

(** [uuid n] is the n-th identifier drawn by [str(uuid.uuid4())[:8]]. *)
Fixpoint number_from (uuid : nat -> pystr) (n : nat) (batch : list course)
  : list (pystr * course) :=
  match batch with
  | [] => []
  | c :: rest => (uuid n, c) :: number_from uuid (S n) rest
  end.

(** The [for target in targets] loop: one identifier for the university,
    then one for each course of its batch. *)
Fixpoint main_loop `{PyText} (internet : web) (uuid : nat -> pystr) (n : nat)
         (todo : list (pystr * list course))
  : list (pystr * option uni_info * list (pystr * course)) :=
  match todo with
  | [] => []
  | (wiki, batch) :: rest =>
    (uuid n, fetch_wiki_university_info internet wiki,
     number_from uuid (S n) batch)
    :: main_loop internet uuid (S n + length batch) rest
  end.

(** [main]: what is written to the file, [existing] being what the file
    held before. *)
Definition main `{PyText} (internet : web) (uuid : nat -> pystr)
           (existing : option dataset) : dataset :=
  merge_and_persist existing
                    (rows_of_run (main_loop internet uuid 0 (targets internet))).

(** Identifiers for the runs below: the draws are told apart by their
    number. *)
Definition numbered (prefix : String.string) (n : nat) : pystr :=
  u prefix ++ str_of_nat n.

(* ================================================================== *)
(** ** What a pattern can consume *)
(* ================================================================== *)

Section Language.
Context `{PyText}.

(** The texts a regular expression can consume, whatever surrounds them. *)
Fixpoint re_lang (r : Re.regex) (w : pystr) {struct r} : Prop :=
  match r with
  | Re.Empty => w = []
  | Re.Lit c => exists d, w = [d] /\ re_ieq c d = true
  | Re.In items => exists d, w = [d] /\ Re.in_class items d = true
  | Re.NotIn items => exists d, w = [d] /\ Re.in_class items d = false
  | Re.Seq r1 r2 => exists w1 w2, w = w1 ++ w2 /\ re_lang r1 w1 /\ re_lang r2 w2
  | Re.Alt r1 r2 => re_lang r1 w \/ re_lang r2 w
  | Re.Rep lo hi r1 =>
    exists ws, w = concat ws /\ lo <= length ws
               /\ match hi with Some h => length ws <= h | None => True end
               /\ Forall (re_lang r1) ws
  | Re.Boundary => w = []
  end.

End Language.

(* ================================================================== *)
(** ** Verification of the written file *)
(* ================================================================== *)

(** A sheet as pandas reads it: the names of its columns and its rows. *)
Record frame := mkFrame {
  columns : list pystr;
  rows    : list (list cell)
}.

(** The file: its sheets by name. *)
Definition workbook := list (pystr * frame).

Fixpoint sheet (name : pystr) (file : workbook) : option frame :=
  match file with
  | [] => None
  | (n, f) :: rest => if pystr_eqb n name then Some f else sheet name rest
  end.

Fixpoint index_of (name : pystr) (cols : list pystr) : option nat :=
  match cols with
  | [] => None
  | c :: rest =>
    if pystr_eqb c name then Some 0 else option_map S (index_of name rest)
  end.

(** [df[name]]: the cells of a column, [None] when the frame has no such
    column (a KeyError). *)
Definition column (name : pystr) (df : frame) : option (list cell) :=
  option_map (fun i => map (fun r => nth i r None) (rows df))
             (index_of name (columns df)).

(** [series.is_unique]; missing values count as equal to each other. *)
Fixpoint is_unique (cells : list cell) : bool :=
  match cells with
  | [] => true
  | c :: rest => negb (existsb (cell_eqb c) rest) && is_unique rest
  end.

Fixpoint row_eqb (a b : list cell) : bool :=
  match a, b with
  | [], [] => true
  | x :: a', y :: b' => cell_eqb x y && row_eqb a' b'
  | _, _ => false
  end.

(** [df.duplicated().sum()]: the rows equal to an earlier row. *)
Fixpoint duplicated_sum (seen rest : list (list cell)) : nat :=
  match rest with
  | [] => 0
  | r :: rest' =>
    (if existsb (row_eqb r) seen then 1 else 0) + duplicated_sum (r :: seen) rest'
  end.

Definition expected_uni_cols : list pystr :=
  map u ["university_id"; "university_name"; "country"; "city"; "website"]%string.

Definition expected_course_cols : list pystr :=
  map u ["course_id"; "university_id"; "course_name"; "level"; "discipline";
         "duration"; "fees"; "eligibility"]%string.

Definition has_columns (expected : list pystr) (df : frame) : bool :=
  forallb (fun col => existsb (pystr_eqb col) (columns df)) expected.

(** What stops [verify_data]: the assertion that fails, or the exception of
    a library call; every one of them ends in [sys.exit(1)]. *)
Inductive failure :=
| Cannot_open_file
| Missing_Universities_sheet
| Missing_Courses_sheet
| Key_error (name : pystr)
| University_id_not_unique
| Course_id_not_unique
| Duplicate_Universities
| Duplicate_Courses
| Missing_col_in_Universities
| Missing_col_in_Courses
| Relational_integrity_failed.

Inductive verdict :=
| Passed
| Failed (why : failure).

(** [file] is what [pd.ExcelFile] opens, [None] when it raises. *)
Definition verify_data (file : option workbook) : verdict :=
  match file with
  | None => Failed Cannot_open_file
  | Some xls =>
    match sheet (u "Universities") xls with
    | None => Failed Missing_Universities_sheet
    | Some df_uni =>
      match sheet (u "Courses") xls with
      | None => Failed Missing_Courses_sheet
      | Some df_courses =>
        match column (u "university_id") df_uni with
        | None => Failed (Key_error (u "university_id"))
        | Some uni_ids =>
          if negb (is_unique uni_ids) then Failed University_id_not_unique
          else
            match column (u "course_id") df_courses with
            | None => Failed (Key_error (u "course_id"))
            | Some course_ids =>
              if negb (is_unique course_ids) then Failed Course_id_not_unique
              else if negb (Nat.eqb (duplicated_sum [] (rows df_uni)) 0)
              then Failed Duplicate_Universities
              else if negb (Nat.eqb (duplicated_sum [] (rows df_courses)) 0)
              then Failed Duplicate_Courses
              else if negb (has_columns expected_uni_cols df_uni)
              then Failed Missing_col_in_Universities
              else if negb (has_columns expected_course_cols df_courses)
              then Failed Missing_col_in_Courses
              else
                match column (u "university_id") df_courses with
                | None => Failed (Key_error (u "university_id"))
                | Some refs =>
                  let valid_uni_ids := uni_ids in
                  let invalid_relations :=
                    filter (fun r => negb (existsb (cell_eqb r) valid_uni_ids))
                           refs in
                  if Nat.eqb (length invalid_relations) 0 then Passed
                  else Failed Relational_integrity_failed
                end
            end
        end
      end
    end
  end.

(** The exit status of the script. *)
Definition exit_status (v : verdict) : nat :=
  match v with Passed => 0 | Failed _ => 1 end.




(** The shape of an amount. *)
Definition amount_like (f : pystr) : Prop :=
  exists sym blanks body decimals,
    f = sym :: blanks ++ body ++ decimals
    /\ In sym (u "£$€₹")
    /\ Forall (fun c => Latin.space c = true) blanks
    /\ 3 <= length body
    /\ Forall (fun c => Latin.is_digit c = true \/ c = 44%N) body
    /\ (decimals = []
        \/ exists ds, decimals = 46%N :: ds /\ 1 <= length ds
                      /\ Forall (fun c => Latin.is_digit c = true) ds).

(** What the loops of the adapters keep true of the records collected so
    far. *)
Definition hamdard_levels : list pystr :=
  [u "Master's"; u "Doctoral"; u "Bachelor's"].

Definition hamdard_ok (courses : list course) : Prop :=
  length courses <= 5
  /\ NoDup (map Course_Name courses)
  /\ Forall (fun c => In (Level c) hamdard_levels
                      /\ 5 < length (Course_Name c) < 80) courses.

Definition concentration_like `{PyText} (c : course) : Prop :=
  Level c = u "Bachelor's" /\ Duration c = u "4 Years"
  /\ exists title,
       Course_Name c = u "Concentration in " ++ title
       /\ 5 <= length title <= 60
       /\ Discipline c = guess_discipline title.

Definition jmi_scanned `{PyText} (c : course) : Prop :=
  Level c = jmi_level (str_lower (Course_Name c))
  /\ 8 <= length (Course_Name c) <= 100
  /\ any_in programme_keywords (str_lower (Course_Name c)) = true
  /\ Fees c = NA /\ Eligibility c = NA.

(* ================================================================== *)
(** ** Fixed pages and runs *)
(* ================================================================== *)

Definition unreachable : web := fun _ _ => None.

Definition document (children : list node) : node :=
  Elem (u "[document]") [] [Elem (u "html") [] children].

(** A page with the heading "BSc Computer Science" and the two sentences
    of the example. *)
Definition bsc_page : node :=
  document
    [Elem (u "body") []
      [Elem (u "h1") [] [Text (u "BSc Computer Science")];
       Elem (u "p") [] [Text (u "Duration: 3 years")];
       Elem (u "p") [] [Text (u "Tuition fee: £15,000 per annum")]]].

Definition serving (url : pystr) (page : node) : web :=
  fun url' _ => if pystr_eqb url' url then Some page else None.

(** The number of decimal digits of a string. *)
Definition count_digits (s : pystr) : nat := length (filter Latin.is_digit s).

Definition application_fee_page : node :=
  document
    [Elem (u "body") []
      [Elem (u "p") [] [Text (u "Application fee: $50, payable online")]]].

(** A school list with one school, whose page lists one diploma course. *)
Definition hamdard_listing : node :=
  document
    [Elem (u "body") []
      [Elem (u "a")
            [(u "href", u "https://www.jamiahamdard.ac.in/school-of-pharmacy")]
            [Text (u "School of Pharmacy")]]].

Definition hamdard_school : node :=
  document
    [Elem (u "body") [] [Elem (u "ul") [] [Elem (u "li") [] [Text (u "Diploma in Pharmacy")]]]].

Definition hamdard_web : web :=
  fun url _ =>
    if pystr_eqb url (u "https://www.jamiahamdard.ac.in/new-school313")
    then Some hamdard_listing
    else if pystr_eqb url (u "https://www.jamiahamdard.ac.in/school-of-pharmacy")
    then Some hamdard_school
    else None.

Definition oxford_info : uni_info :=
  {| University_Name := u "University of Oxford";
     Country := u "United Kingdom";
     City := u "Oxford";
     Website := u "https://www.ox.ac.uk" |}.

(** Two runs of [main] that both resolve the University of Oxford and get
    the same five courses, each run drawing its own identifiers. *)
Definition oxford_batch : list course :=
  map (fun name => mkCourse (u name) (u "Bachelor's") (u "General")
                            (u "3 Years") NA NA)
      ["Archaeology and Anthropology"; "Biochemistry"; "Biology"; "Chemistry";
       "Classics"]%string.

Definition first_run : dataset :=
  rows_of_run
    [ (u "1a2b3c4d", Some oxford_info,
       combine (map u ["c1000001"; "c1000002"; "c1000003"; "c1000004";
                       "c1000005"]%string) oxford_batch) ].

Definition second_run : dataset :=
  rows_of_run
    [ (u "5e6f7a8b", Some oxford_info,
       combine (map u ["c2000001"; "c2000002"; "c2000003"; "c2000004";
                       "c2000005"]%string) oxford_batch) ].

Definition first_file : dataset := merge_and_persist None first_run.
Definition second_file : dataset := merge_and_persist (Some first_file) second_run.

Definition location_row (location : String.string) : node :=
  Elem (u "tr") []
    [Elem (u "th") [] [Text (u "Location")];
     Elem (u "td") [] [Text (u location)]].

Definition wiki_page (title location : String.string) : node :=
  document
    [Elem (u "body") []
      [Elem (u "h1") [(u "id", u "firstHeading")] [Text (u title)];
       Elem (u "table") [(u "class", u "infobox vcard")]
         [Elem (u "tbody") [] [location_row location]]]].


(* ================================================================== *)
(** * Properties *)
(* ================================================================== *)

(** ** Strings *)

Lemma pystr_eqb_eq a b : pystr_eqb a b = true <-> a = b.
Proof. unfold pystr_eqb. destruct (pystr_eq_dec a b); split; congruence. Qed.

Lemma pystr_eqb_refl a : pystr_eqb a a = true.
Proof. now apply pystr_eqb_eq. Qed.

Lemma startswith_iff (s p : pystr) :
  startswith s p = true <-> exists post, s = p ++ post.
Proof.
  revert s; induction p as [|c p IH]; intros s; simpl.
  - split; [intros _; now exists s | reflexivity].
  - destruct s as [|e s]; simpl.
    + split; [discriminate | intros [post Hp]; discriminate].
    + rewrite andb_true_iff, N.eqb_eq, IH. split.
      * intros [-> [post ->]]. now exists post.
      * intros [post Hp]. injection Hp as -> ->. split; [reflexivity | now exists post].
Qed.

Lemma contains_iff (needle hay : pystr) :
  contains needle hay = true <-> substring needle hay.
Proof.
  unfold substring. induction hay as [|c hay IH].
  - cbn [contains]. rewrite orb_false_r, startswith_iff. split.
    + intros [post Hp]. now exists [], post.
    + intros [pre [post Hp]]. destruct pre; [now exists post | discriminate].
  - cbn [contains]. rewrite orb_true_iff, startswith_iff, IH. split.
    + intros [[post Hp] | [pre [post Hp]]].
      * now exists [], post.
      * exists (c :: pre), post. now rewrite Hp.
    + intros [[|e pre] [post Hp]].
      * left. now exists post.
      * right. injection Hp as _ Hp. now exists pre, post.
Qed.

Lemma contains_false_iff (needle hay : pystr) :
  contains needle hay = false <-> ~ substring needle hay.
Proof.
  rewrite <- contains_iff. destruct (contains needle hay); split; congruence.
Qed.

(** ** The discipline classifier *)

Lemma first_keyword_some items name_lower label :
  first_keyword items name_lower = Some label ->
  exists before keyword after,
    items = before ++ (keyword, label) :: after
    /\ substring keyword name_lower
    /\ forall k l, In (k, l) before -> ~ substring k name_lower.
Proof.
  induction items as [|[k0 l0] items IH]; simpl; [discriminate|].
  destruct (contains k0 name_lower) eqn:Hc.
  - intros [= <-]. exists [], k0, items. repeat split.
    + now apply contains_iff.
    + intros k l [].
  - intros Hf. destruct (IH Hf) as (before & keyword & after & -> & Hsub & Hnone).
    exists ((k0, l0) :: before), keyword, after. repeat split; trivial.
    intros k l [[= <- <-] | Hin].
    + now apply contains_false_iff.
    + eauto.
Qed.

Lemma first_keyword_none items name_lower :
  first_keyword items name_lower = None <->
  forall k l, In (k, l) items -> ~ substring k name_lower.
Proof.
  induction items as [|[k0 l0] items IH]; simpl.
  - split; [intros _ k l [] | reflexivity].
  - destruct (contains k0 name_lower) eqn:Hc.
    + split; [discriminate|]. intros Hall. exfalso.
      apply (Hall k0 l0); [now left | now apply contains_iff].
    + rewrite IH. split.
      * intros Hall k l [[= <- <-] | Hin]; [now apply contains_false_iff | eauto].
      * intros Hall k l Hin. eauto.
Qed.

(** The keys of the two dict literals are distinct, so that the lists hold
    what the dicts hold, in the order of iteration. *)
Lemma discipline_map_keys :
  forallb (fun i => forallb (fun j => Nat.eqb i j
                       || negb (pystr_eqb (fst (nth i discipline_map ([], [])))
                                          (fst (nth j discipline_map ([], [])))))
                            (seq 0 (length discipline_map)))
          (seq 0 (length discipline_map)) = true.
Proof. vm_compute. reflexivity. Qed.

Lemma labels_not_general :
  forallb (fun kl => negb (pystr_eqb (snd kl) (u "General"))) discipline_map = true.
Proof. vm_compute. reflexivity. Qed.

Lemma labels_not_sentinel :
  forallb (fun kl => negb (pystr_eqb (snd kl) NA)) discipline_map = true.
Proof. vm_compute. reflexivity. Qed.

Lemma label_differs (other : pystr) keyword label :
  forallb (fun kl => negb (pystr_eqb (snd kl) other)) discipline_map = true ->
  In (keyword, label) discipline_map -> label <> other.
Proof.
  intros Hall Hin. rewrite forallb_forall in Hall. specialize (Hall _ Hin).
  simpl in Hall. intros ->. now rewrite pystr_eqb_refl in Hall.
Qed.

(** C7.  For every course name, [guess_discipline] returns the label of the
    first keyword, in the order of the table, that is a substring of the
    lower-cased name, and it returns "General" exactly when no keyword of the
    table is a substring of the lower-cased name. *)
Theorem guess_discipline_first_match `{PyText} (name : pystr) :
  ((exists before keyword label after,
       discipline_map = before ++ (keyword, label) :: after
       /\ substring keyword (str_lower name)
       /\ (forall k l, In (k, l) before -> ~ substring k (str_lower name))
       /\ guess_discipline name = label)
   \/ ((forall k l, In (k, l) discipline_map -> ~ substring k (str_lower name))
       /\ guess_discipline name = u "General"))
  /\ (guess_discipline name = u "General"
      <-> forall k l, In (k, l) discipline_map -> ~ substring k (str_lower name)).
Proof.
  unfold guess_discipline.
  destruct (first_keyword discipline_map (str_lower name)) as [label|] eqn:Hf.
  - destruct (first_keyword_some _ _ Hf) as (before & keyword & after & Heq & Hsub & Hnone).
    split.
    + left. exists before, keyword, label, after. repeat split; trivial.
    + split.
      * intros Hgen. exfalso.
        apply (@label_differs (u "General") keyword label labels_not_general); trivial.
        rewrite Heq. apply in_or_app. right. now left.
      * intros Hall. exfalso. apply (Hall keyword label); trivial.
        rewrite Heq. apply in_or_app. right. now left.
  - pose proof (proj1 (first_keyword_none _ _) Hf) as Hall. split.
    + right. now split.
    + split; trivial.
Qed.

Lemma guess_discipline_not_sentinel `{PyText} (name : pystr) :
  guess_discipline name <> NA.
Proof.
  unfold guess_discipline.
  destruct (first_keyword discipline_map (str_lower name)) as [label|] eqn:Hf.
  - destruct (first_keyword_some _ _ Hf) as (before & keyword & after & Heq & _).
    apply (@label_differs NA keyword label labels_not_sentinel).
    rewrite Heq. apply in_or_app. right. now left.
  - vm_compute. discriminate.
Qed.

(** ** Padding *)

(** Five rounds are enough for the [while] loop: its condition is false
    when they are over. *)
Lemma pad_while_exit (courses : list course) (label : pystr) :
  (length (pad_while 5 courses label) <? 5) = false.
Proof.
  destruct courses as [|c1 [|c2 [|c3 [|c4 [|c5 rest]]]]]; reflexivity.
Qed.

(** More rounds change nothing. *)
Lemma pad_while_more (extra : nat) (courses : list course) (label : pystr) :
  pad_while (5 + extra) courses label = pad_while 5 courses label.
Proof.
  destruct courses as [|c1 [|c2 [|c3 [|c4 [|c5 rest]]]]];
    destruct extra; reflexivity.
Qed.

Lemma pad_courses_length (courses : list course) (label : pystr) :
  length (pad_courses courses label) = 5.
Proof.
  destruct courses as [|c1 [|c2 [|c3 [|c4 [|c5 rest]]]]]; reflexivity.
Qed.

(** C3, as the code has it.  For every list of course records and every
    label, [pad_courses] returns exactly 5 records: the first 5 of the input,
    in their order and unchanged, followed, when the input has fewer than 5,
    by placeholder rows; the placeholder at position n (counted from 1) is
    named "<label> Course <n>", its Level, Duration, Fees and Eligibility
    are the sentinel and its Discipline is "General". *)
Theorem pad_courses_five (courses : list course) (label : pystr) :
  length (pad_courses courses label) = 5
  /\ pad_courses courses label =
     firstn 5 courses ++
     map (fun n => {| Course_Name := label ++ u " Course " ++ str_of_nat (n + 1);
                      Level := NA;
                      Discipline := u "General";
                      Duration := NA;
                      Fees := NA;
                      Eligibility := NA |})
         (seq (length courses) (5 - length courses)).
Proof.
  destruct courses as [|c1 [|c2 [|c3 [|c4 [|c5 rest]]]]]; split; reflexivity.
Qed.

(** C3, as stated, fails: the claim makes every data field of a placeholder
    the sentinel, the placeholders of an empty Oxford batch have the
    Discipline "General". *)
Lemma pad_courses_placeholder_discipline :
  ~ (forall r, In r (pad_courses [] (u "Oxford")) ->
       Level r = NA /\ Discipline r = NA /\ Duration r = NA
       /\ Fees r = NA /\ Eligibility r = NA).
Proof.
  intros Hall.
  destruct (Hall (placeholder (u "Oxford") 0)) as (_ & Hd & _).
  - now left.
  - vm_compute in Hd. discriminate.
Qed.

(** ** An unreachable listing page *)

(** C6.  When the fetch of the listing page fails, [discover_and_scrape]
    returns the empty list, and [pad_courses] turns it into a batch of
    exactly 5 placeholder records. *)
Theorem unreachable_listing_is_padded `{PyText} (internet : web)
        (listing_url link_part : pystr) (base_url : option pystr)
        (verify : bool) (max_courses : nat) (label : pystr) :
  get_soup internet listing_url verify = None ->
  discover_and_scrape internet listing_url link_part base_url verify max_courses = []
  /\ length (pad_courses (discover_and_scrape internet listing_url link_part
                                              base_url verify max_courses) label) = 5
  /\ pad_courses (discover_and_scrape internet listing_url link_part
                                      base_url verify max_courses) label
     = map (fun n => {| Course_Name := label ++ u " Course " ++ str_of_nat n;
                        Level := NA;
                        Discipline := u "General";
                        Duration := NA;
                        Fees := NA;
                        Eligibility := NA |}) [1; 2; 3; 4; 5].
Proof.
  intros Hfail. unfold discover_and_scrape. rewrite Hfail.
  repeat split; reflexivity.
Qed.

Lemma unreachable_listing_is_padded_witness :
  discover_and_scrape unreachable (u "https://www.ox.ac.uk/listing")
                      (u "/courses/") None true 5 = []
  /\ length (pad_courses (discover_and_scrape unreachable
               (u "https://www.ox.ac.uk/listing") (u "/courses/") None true 5)
               (u "Oxford")) = 5
  /\ pad_courses (discover_and_scrape unreachable
               (u "https://www.ox.ac.uk/listing") (u "/courses/") None true 5)
               (u "Oxford")
     = map (fun n => {| Course_Name := u "Oxford" ++ u " Course " ++ str_of_nat n;
                        Level := NA;
                        Discipline := u "General";
                        Duration := NA;
                        Fees := NA;
                        Eligibility := NA |}) [1; 2; 3; 4; 5].
Proof.
  apply (@unreachable_listing_is_padded basic_latin unreachable). reflexivity.
Defined.

(** The Oxford adapter on an unreachable listing page. *)
Lemma oxford_unreachable `{PyText} (internet : web) :
  internet (u "https://www.ox.ac.uk/admissions/undergraduate/courses/course-listing")
           true = None ->
  map Course_Name (extract_courses_oxford internet)
  = map u ["Oxford Course 1"; "Oxford Course 2"; "Oxford Course 3";
           "Oxford Course 4"; "Oxford Course 5"]%string.
Proof.
  intros Hfail. unfold extract_courses_oxford, discover_and_scrape, get_soup.
  rewrite Hfail. reflexivity.
Qed.

(** ** One course page *)

(** C10, as the code has it.  [scrape_course_page] returns a record with the
    six fields.  When the fetch fails, Course Name is the fallback name and
    the five other fields, Discipline among them, are the sentinel.  When
    the page is fetched, Discipline is [guess_discipline] of the final
    Course Name and is not the sentinel. *)
Theorem scrape_course_page_discipline `{PyText} (internet : web)
        (url fallback_name : pystr) (verify : bool) :
  match get_soup internet url verify with
  | None =>
    scrape_course_page internet url fallback_name verify
    = {| Course_Name := fallback_name; Level := NA; Discipline := NA;
         Duration := NA; Fees := NA; Eligibility := NA |}
  | Some _ =>
    Discipline (scrape_course_page internet url fallback_name verify)
    = guess_discipline
        (Course_Name (scrape_course_page internet url fallback_name verify))
    /\ Discipline (scrape_course_page internet url fallback_name verify) <> NA
  end.
Proof.
  unfold scrape_course_page.
  destruct (get_soup internet url verify) as [soup|]; [|reflexivity].
  cbn [Discipline Course_Name]. split; [reflexivity|].
  apply guess_discipline_not_sentinel.
Qed.

(** C10, as stated, fails: on a failed fetch the Discipline is the sentinel,
    not the discipline guessed from the course name. *)
Lemma scrape_course_page_failed_fetch :
  Discipline (scrape_course_page unreachable (u "https://www.ox.ac.uk/cs")
                                 (u "Computer Science") true) = NA
  /\ guess_discipline
       (Course_Name (scrape_course_page unreachable (u "https://www.ox.ac.uk/cs")
                                        (u "Computer Science") true))
     = u "Computer Science"
  /\ Discipline (scrape_course_page unreachable (u "https://www.ox.ac.uk/cs")
                                    (u "Computer Science") true)
     <> guess_discipline
          (Course_Name (scrape_course_page unreachable (u "https://www.ox.ac.uk/cs")
                                           (u "Computer Science") true)).
Proof.
  repeat split; vm_compute; congruence.
Qed.

(** ** The field extractor on fixed pages *)

Example bsc_page_text :
  option_map (Soup.get_text_strip (u " ")) (Soup.find (u "body") bsc_page)
  = Some (u "BSc Computer Science Duration: 3 years Tuition fee: £15,000 per annum").
Proof. vm_compute. reflexivity. Qed.

(** C2, as the code has it.  On the page with the heading "BSc Computer
    Science" and the text "Duration: 3 years", "Tuition fee: £15,000 per
    annum", [extract_details_from_page] finds the Duration "3 Years" and the
    Fees "£15,000" and finds no Level, so that the scraped record has the
    sentinel as its Level; [guess_discipline] of the heading is "Computer
    Science" and [extract_course_name] is "BSc Computer Science". *)
Theorem bsc_page_extraction :
  extract_details_from_page (Some bsc_page)
  = {| found_Duration := Some (u "3 Years");
       found_Fees := Some (u "£15,000");
       found_Level := None;
       found_Eligibility := None |}
  /\ guess_discipline (u "BSc Computer Science") = u "Computer Science"
  /\ extract_course_name (Some bsc_page) = Some (u "BSc Computer Science")
  /\ scrape_course_page (serving (u "https://www.ox.ac.uk/cs") bsc_page)
                        (u "https://www.ox.ac.uk/cs") (u "Computer Science") true
     = {| Course_Name := u "BSc Computer Science";
          Level := u "Not Available";
          Discipline := u "Computer Science";
          Duration := u "3 Years";
          Fees := u "£15,000";
          Eligibility := u "Not Available" |}.
Proof. repeat split; vm_compute; reflexivity. Qed.

(** C2, as stated, fails: no Level "Bachelor's" is returned for the page. *)
Lemma bsc_page_level_not_bachelors :
  found_Level (extract_details_from_page (Some bsc_page)) <> Some (u "Bachelor's").
Proof. vm_compute. discriminate. Qed.

(** No text gets the Level "Bachelor's": [str.title] puts the letter after
    the apostrophe in upper case. *)
Lemma title_go_length (b : bool) (s : pystr) :
  length (Latin.title_go b s) = length s.
Proof.
  revert b; induction s as [|c s IH]; intros b; simpl; [reflexivity|].
  now rewrite IH.
Qed.

Lemma title_after_apostrophe (b : bool) (c d : N) :
  Latin.title_go b [c; d] <> [39; 115]%N.
Proof.
  cbn [Latin.title_go]. intros Heq. injection Heq as Hc Hd. destruct b;
  unfold Latin.cased, Latin.lower, Latin.upper, Latin.is_upper, Latin.is_lower in *;
  repeat match goal with
         | H : context [(?x <=? ?y)%N] |- _ => destruct (N.leb_spec x y)
         end; cbn [andb orb] in *; lia.
Qed.

Lemma title_go_app (b : bool) (s t : pystr) :
  exists b', Latin.title_go b (s ++ t) = Latin.title_go b s ++ Latin.title_go b' t.
Proof.
  revert b; induction s as [|c s IH]; intros b.
  - now exists b.
  - destruct (IH (Latin.cased c)) as [b' Hb']. exists b'.
    cbn [app Latin.title_go]. now rewrite Hb'.
Qed.

Lemma title_never_bachelors (s : pystr) :
  Latin.title_go false s <> u "Bachelor's".
Proof.
  intros Heq.
  assert (Hlen : length s = 10) by (rewrite <- (title_go_length false), Heq; reflexivity).
  rewrite <- (firstn_skipn 8 s) in Heq.
  destruct (title_go_app false (firstn 8 s) (skipn 8 s)) as [b' Hb']. rewrite Hb' in Heq.
  assert (H8 : length (Latin.title_go false (firstn 8 s)) = 8)
    by (rewrite title_go_length, length_firstn; lia).
  assert (Htail : Latin.title_go b' (skipn 8 s) = [39; 115]%N).
  { apply (f_equal (skipn 8)) in Heq.
    rewrite skipn_app, H8, Nat.sub_diag in Heq.
    rewrite skipn_all2 in Heq by lia. exact Heq. }
  assert (Hs : length (skipn 8 s) = 2) by (rewrite length_skipn; lia).
  destruct (skipn 8 s) as [|c [|d [|e rest]]]; try discriminate.
  exact (@title_after_apostrophe b' c d Htail).
Qed.

Lemma level_never_bachelors (full_text : pystr) :
  found_Level (extract_details_from_text full_text) <> Some (u "Bachelor's").
Proof.
  cbn [extract_details_from_text found_Level].
  destruct (Re.search Patterns.level_pat full_text) as [g|]; [|discriminate].
  cbn [option_map]. intros [= Heq]. exact (@title_never_bachelors (strip g) Heq).
Qed.

(** C4.  A page whose text is "Application fee: $50, payable online" gets
    the Fees "$50,": two digits after the currency symbol, the comma having
    been counted as the third character of the number. *)
Theorem fees_with_two_digits :
  found_Fees (extract_details_from_page (Some application_fee_page))
  = Some (u "$50,")
  /\ count_digits (u "$50,") = 2.
Proof. split; vm_compute; reflexivity. Qed.

(** The same pattern accepts a number with no digit at all. *)
Example fees_without_digits :
  found_Fees (extract_details_from_text (u "from $,,, upwards")) = Some (u "$,,,").
Proof. vm_compute. reflexivity. Qed.

(** ** Levels in the text-scan adapters *)

(** The level of the JMI adapter follows the order master, PhD, diploma,
    bachelor. *)
Lemma jmi_level_precedence (text_lower : pystr) :
  let master := any_in (map u ["m.tech"; "m.sc"; "master"; "mba"]%string) text_lower in
  (master = true -> jmi_level text_lower = u "Master's")
  /\ (master = false -> contains (u "ph.d") text_lower = true ->
      jmi_level text_lower = u "Doctoral")
  /\ (master = false -> contains (u "ph.d") text_lower = false ->
      contains (u "diploma") text_lower = true ->
      jmi_level text_lower = u "Diploma")
  /\ (master = false -> contains (u "ph.d") text_lower = false ->
      contains (u "diploma") text_lower = false ->
      jmi_level text_lower = u "Bachelor's").
Proof.
  unfold jmi_level. cbv zeta. repeat split; intros; 
    repeat match goal with Heq : _ = _ |- _ => rewrite Heq; clear Heq end;
    reflexivity.
Qed.

(** Every record the JMI scan adds has the level of its own name. *)
Lemma jmi_scan_levels `{PyText} (tags : list node) :
  forall (courses : list course) (seen : list pystr) (c : course),
    In c (jmi_scan tags courses seen) ->
    In c courses \/ Level c = jmi_level (str_lower (Course_Name c)).
Proof.
  induction tags as [|tag rest IH]; intros courses seen c; [now left|].
  cbn [jmi_scan]. set (text := Soup.get_text_strip [] tag). cbv zeta.
  destruct ((length text <? 8) || (100 <? length text)); [apply IH|].
  destruct (any_in programme_keywords (str_lower text)); [|apply IH].
  destruct (negb (existsb (pystr_eqb text) seen)).
  - assert (Hnew : forall c', In c' (courses ++ [jmi_course text (str_lower text)]) ->
              In c' courses \/ Level c' = jmi_level (str_lower (Course_Name c'))).
    { intros c' Hin. apply in_app_or in Hin. destruct Hin as [Hin | [<- | []]].
      - now left.
      - right. reflexivity. }
    destruct (5 <=? length (courses ++ [jmi_course text (str_lower text)])).
    + apply Hnew.
    + intros Hin. destruct (IH _ _ _ Hin) as [Hin' | Hl]; [now apply Hnew | now right].
  - destruct (5 <=? length courses); [now left | apply IH].
Qed.

(** C9.  The Jamia Hamdard adapter gives the course "Diploma in Pharmacy"
    the level "Bachelor's"; the JMI adapter's rule gives the same text the
    level "Diploma". *)
Theorem hamdard_diploma_level :
  hd_error (extract_courses_jamia_hamdard hamdard_web)
  = Some {| Course_Name := u "Diploma in Pharmacy";
            Level := u "Bachelor's";
            Discipline := u "Pharmacy";
            Duration := u "Not Available";
            Fees := u "Not Available";
            Eligibility := u "Not Available" |}
  /\ any_in (map u ["m.tech"; "m.sc"; "master"; "mba"; "ll.m"]%string)
            (str_lower (u "Diploma in Pharmacy")) = false
  /\ contains (u "ph.d") (str_lower (u "Diploma in Pharmacy")) = false
  /\ contains (u "diploma") (str_lower (u "Diploma in Pharmacy")) = true
  /\ jmi_level (str_lower (u "Diploma in Pharmacy")) = u "Diploma".
Proof. repeat split; vm_compute; reflexivity. Qed.

(** ** Deduplication *)

Lemma last_cons (A : Type) (x d : A) (xs : list A) : last (x :: xs) d = last xs x.
Proof.
  revert x d; induction xs as [|y ys IH]; intros x d; [reflexivity|].
  change (last (x :: y :: ys) d) with (last (y :: ys) d).
  rewrite IH. symmetry. apply IH.
Qed.

Lemma last_snoc (A : Type) (x d : A) (xs : list A) : last (xs ++ [x]) d = x.
Proof.
  apply last_last.
Qed.

Lemma filter_nil_iff (A : Type) (f : A -> bool) (l : list A) :
  filter f l = [] <-> forall x, In x l -> f x = false.
Proof.
  induction l as [|a l IH]; simpl.
  - split; [intros _ x [] | reflexivity].
  - destruct (f a) eqn:Hfa.
    + split; [discriminate|]. intros Hall. rewrite (Hall a) in Hfa; [discriminate | now left].
    + rewrite IH. split.
      * intros Hall x [<- | Hin]; auto.
      * intros Hall x Hin. apply Hall. now right.
Qed.

Lemma existsb_false_iff (A : Type) (f : A -> bool) (l : list A) :
  existsb f l = false <-> forall x, In x l -> f x = false.
Proof.
  induction l as [|a l IH]; simpl.
  - split; [intros _ x [] | reflexivity].
  - rewrite orb_false_iff, IH. split.
    + intros [Ha Hall] x [<- | Hin]; auto.
    + intros Hall. split; [apply Hall; now left | intros x Hin; apply Hall; now right].
Qed.

Section KeepLast.
Variable row : Type.
Variable same : row -> row -> bool.
Hypothesis same_refl : forall a, same a a = true.
Hypothesis same_sym : forall a b, same a b = same b a.
Hypothesis same_trans :
  forall a b c, same a b = true -> same b c = true -> same a c = true.

Lemma same_transfer a b c : same a b = true -> same a c = same b c.
Proof.
  intros Hab. destruct (same b c) eqn:Hbc.
  - eapply same_trans; eassumption.
  - destruct (same a c) eqn:Hac; [|reflexivity].
    rewrite <- Hbc. symmetry. apply same_trans with a; [now rewrite same_sym | assumption].
Qed.

Lemma drop_duplicates_incl (df : list row) (r : row) :
  In r (drop_duplicates same df) -> In r df.
Proof.
  induction df as [|a df IH]; simpl; [trivial|].
  destruct (existsb (same a) df); simpl; intuition.
Qed.

(** Of the rows that agree with [r], the deduplicated frame keeps the
    last and nothing else. *)
Lemma drop_duplicates_filter (df : list row) (r : row) :
  filter (same r) (drop_duplicates same df)
  = match filter (same r) df with
    | [] => []
    | x :: xs => [last xs x]
    end.
Proof.
  induction df as [|a df IH]; [reflexivity|].
  cbn [drop_duplicates filter].
  destruct (existsb (same a) df) eqn:Hex.
  - rewrite IH. destruct (same r a) eqn:Hra; [|reflexivity].
    apply existsb_exists in Hex. destruct Hex as (x & Hin & Hax).
    destruct (filter (same r) df) as [|y ys] eqn:Hf.
    + rewrite filter_nil_iff in Hf. specialize (Hf x Hin).
      rewrite (same_transfer _ Hra) in Hf. congruence.
    + now rewrite last_cons.
  - cbn [filter]. destruct (same r a) eqn:Hra; [|apply IH].
    rewrite IH. rewrite existsb_false_iff in Hex.
    assert (Hnone : filter (same r) df = []).
    { apply filter_nil_iff. intros x Hin. rewrite (same_transfer _ Hra). now apply Hex. }
    now rewrite Hnone.
Qed.

Lemma drop_duplicates_keeps_last (df : list row) (r : row) :
  In r df ->
  filter (same r) (drop_duplicates same df) = [last (filter (same r) df) r].
Proof.
  intros Hin. rewrite drop_duplicates_filter.
  destruct (filter (same r) df) as [|x xs] eqn:Hf.
  - rewrite filter_nil_iff in Hf. specialize (Hf r Hin).
    rewrite same_refl in Hf. discriminate.
  - now rewrite last_cons.
Qed.

(** Two rows that agree, the later one being the last of its kind: only
    the later one is kept. *)
Lemma drop_duplicates_later (l1 l2 l3 : list row) (a b : row) :
  same a b = true ->
  (forall x, In x l3 -> same b x = false) ->
  filter (same a) (drop_duplicates same (l1 ++ a :: l2 ++ b :: l3)) = [b].
Proof.
  intros Hab Hlast.
  rewrite drop_duplicates_keeps_last by (apply in_or_app; right; now left).
  f_equal.
  replace (l1 ++ a :: l2 ++ b :: l3) with ((l1 ++ a :: l2) ++ [b] ++ l3)
    by (rewrite <- app_assoc; reflexivity).
  rewrite !filter_app. cbn [filter]. rewrite Hab.
  assert (Hnone : filter (same a) l3 = []).
  { apply filter_nil_iff. intros x Hin. rewrite (same_transfer _ Hab). now apply Hlast. }
  rewrite Hnone. cbn [app]. apply last_snoc.
Qed.

End KeepLast.

Lemma cell_eqb_refl a : cell_eqb a a = true.
Proof. destruct a; simpl; [apply pystr_eqb_refl | reflexivity]. Qed.

Lemma cell_eqb_eq a b : cell_eqb a b = true <-> a = b.
Proof.
  destruct a, b; simpl; try rewrite pystr_eqb_eq; split; congruence.
Qed.

Lemma cell_eqb_sym a b : cell_eqb a b = cell_eqb b a.
Proof.
  destruct (cell_eqb a b) eqn:Hab.
  - apply cell_eqb_eq in Hab. subst. symmetry. apply cell_eqb_refl.
  - destruct (cell_eqb b a) eqn:Hba; [|reflexivity].
    apply cell_eqb_eq in Hba. subst. now rewrite cell_eqb_refl in Hab.
Qed.

Lemma cell_eqb_trans a b c :
  cell_eqb a b = true -> cell_eqb b c = true -> cell_eqb a c = true.
Proof. rewrite !cell_eqb_eq. congruence. Qed.

Lemma same_university_name_refl a : same_university_name a a = true.
Proof. apply cell_eqb_refl. Qed.

Lemma same_university_name_sym a b :
  same_university_name a b = same_university_name b a.
Proof. apply cell_eqb_sym. Qed.

Lemma same_university_name_trans a b c :
  same_university_name a b = true -> same_university_name b c = true ->
  same_university_name a c = true.
Proof. apply cell_eqb_trans. Qed.

Lemma same_course_refl a : same_course a a = true.
Proof. unfold same_course. now rewrite !cell_eqb_refl. Qed.

Lemma same_course_sym a b : same_course a b = same_course b a.
Proof.
  unfold same_course.
  now rewrite (cell_eqb_sym (course_name a)), (cell_eqb_sym (of_university a)).
Qed.

Lemma same_course_trans a b c :
  same_course a b = true -> same_course b c = true -> same_course a c = true.
Proof.
  unfold same_course. rewrite !andb_true_iff. intros [H1 H2] [H3 H4].
  split; eapply cell_eqb_trans; eassumption.
Qed.

(** C5.  With the prior rows placed before the new ones, of two rows with the
    same university_name the deduplicated Universities frame keeps exactly
    one row of that name, the later one, and of two rows with the same
    (course_name, university_id) the deduplicated Courses frame keeps exactly
    one row of that pair, the later one; "the later" is the last row that
    carries the name or the pair.  The persisted sheets are these frames
    with their missing cells filled. *)
Theorem merge_last_write_wins (old new : dataset) :
  (forall l1 a l2 b l3,
      Universities old ++ Universities new = l1 ++ a :: l2 ++ b :: l3 ->
      same_university_name a b = true ->
      (forall x, In x l3 -> same_university_name b x = false) ->
      filter (same_university_name a)
             (drop_duplicates same_university_name
                              (Universities old ++ Universities new)) = [b])
  /\ (forall l1 a l2 b l3,
      Courses old ++ Courses new = l1 ++ a :: l2 ++ b :: l3 ->
      same_course a b = true ->
      (forall x, In x l3 -> same_course b x = false) ->
      filter (same_course a)
             (drop_duplicates same_course (Courses old ++ Courses new)) = [b])
  /\ Universities (merge_and_persist (Some old) new)
     = map fillna_uni (drop_duplicates same_university_name
                                       (Universities old ++ Universities new))
  /\ Courses (merge_and_persist (Some old) new)
     = map fillna_course (drop_duplicates same_course
                                          (Courses old ++ Courses new)).
Proof.
  repeat split.
  - intros l1 a l2 b l3 -> Hab Hlast.
    apply drop_duplicates_later; trivial.
    + apply same_university_name_refl.
    + apply same_university_name_sym.
    + apply same_university_name_trans.
  - intros l1 a l2 b l3 -> Hab Hlast.
    apply drop_duplicates_later; trivial.
    + apply same_course_refl.
    + apply same_course_sym.
    + apply same_course_trans.
Qed.

Lemma merge_last_write_wins_witness :
  filter (same_university_name (university_of (u "1a2b3c4d") (Some oxford_info)))
         (drop_duplicates same_university_name
                          (Universities first_file ++ Universities second_run))
  = [university_of (u "5e6f7a8b") (Some oxford_info)].
Proof.
  apply (proj1 (merge_last_write_wins first_file second_run)
               [] (university_of (u "1a2b3c4d") (Some oxford_info))
               [] (university_of (u "5e6f7a8b") (Some oxford_info)) []).
  - reflexivity.
  - reflexivity.
  - intros x [].
Defined.

(** ** Referential integrity *)

(** C1.  After a first run the check of [verify_data] passes.  After a
    second run that resolves the same university under a new identifier, the
    Universities sheet holds only the new row, the five courses of the first
    run are still in the Courses sheet with the identifier of the row that
    was dropped, and the check fails. *)
Theorem second_run_breaks_integrity :
  relational_integrity first_file = true
  /\ map university_id (Universities second_file) = [Some (u "5e6f7a8b")]
  /\ map of_university (invalid_relations second_file)
     = repeat (Some (u "1a2b3c4d")) 5
  /\ length (Courses second_file) = 10
  /\ relational_integrity second_file = false.
Proof. repeat split; vm_compute; reflexivity. Qed.

(** The same happens within one run when two targets end with the same
    name, as they do when the reference page of both cannot be fetched. *)
Example unresolved_names_break_integrity :
  relational_integrity
    (merge_and_persist None
       (rows_of_run
          [ (u "1a2b3c4d", None, [(u "c1000001", placeholder (u "Oxford") 0)]);
            (u "5e6f7a8b", None, [(u "c2000001", placeholder (u "Harvard") 0)]) ]))
  = false.
Proof. vm_compute. reflexivity. Qed.


(** ** The university resolver *)

Lemma split_not_nil `{PyText} (sep : N) (s : pystr) : split sep s <> [].
Proof.
  destruct s as [|c s]; simpl; [discriminate|].
  destruct (N.eqb c sep); [discriminate|].
  destruct (split sep s); discriminate.
Qed.

(** The segments of [split], joined by the separator, give the string
    back, and no segment has the separator in it. *)
Lemma split_join `{PyText} (sep : N) (s : pystr) : join [sep] (split sep s) = s.
Proof.
  induction s as [|c s IH]; [reflexivity|].
  cbn [split]. pose proof (split_not_nil sep s) as Hne.
  destruct (N.eqb c sep) eqn:Hc.
  - apply N.eqb_eq in Hc. subst c.
    destruct (split sep s) as [|seg segs]; [congruence|].
    change (join [sep] ([] :: seg :: segs))
      with ([] ++ [sep] ++ join [sep] (seg :: segs)).
    now rewrite IH.
  - destruct (split sep s) as [|seg segs]; [congruence|].
    destruct segs as [|seg' segs].
    + change (join [sep] [c :: seg]) with (c :: join [sep] [seg]). now rewrite IH.
    + change (join [sep] ((c :: seg) :: seg' :: segs))
        with (c :: join [sep] (seg :: seg' :: segs)).
      now rewrite IH.
Qed.

Lemma split_no_separator `{PyText} (sep : N) (s : pystr) :
  Forall (fun seg => ~ In sep seg) (split sep s).
Proof.
  induction s as [|c s IH]; cbn [split].
  - constructor; [intros [] | constructor].
  - destruct (N.eqb c sep) eqn:Hc.
    + constructor; [intros [] | exact IH].
    + apply N.eqb_neq in Hc.
      destruct (split sep s) as [|seg segs].
      * constructor; [|constructor]. intros [Heq | []]. congruence.
      * inversion IH as [|? ? Hseg Hsegs]; subst. constructor; [|exact Hsegs].
        intros [Heq | Hin]; [congruence | now apply Hseg].
Qed.

Lemma strip_nil `{PyText} : strip [] = [].
Proof. reflexivity. Qed.

Lemma hd_map_strip `{PyText} (l : list pystr) : hd [] (map strip l) = strip (hd [] l).
Proof. destruct l; reflexivity. Qed.

Lemma last_map_strip `{PyText} (l : list pystr) :
  last (map strip l) [] = strip (last l []).
Proof.
  induction l as [|a l IH]; [reflexivity|].
  destruct l as [|b l]; [reflexivity|].
  change (last (map strip (b :: l)) [] = strip (last (b :: l) [])). exact IH.
Qed.

Lemma set_website_keeps `{PyText} (td : node) (info : uni_info) :
  City (set_website td info) = City info
  /\ Country (set_website td info) = Country info.
Proof. split; reflexivity. Qed.

Lemma apply_fallbacks_first (table : list (pystr * (pystr * pystr)))
      (wiki_url : pystr) (info : uni_info) :
  (exists before key country city after,
      table = before ++ (key, (country, city)) :: after
      /\ substring key wiki_url
      /\ (forall k v, In (k, v) before -> ~ substring k wiki_url)
      /\ apply_fallbacks table wiki_url info
         = {| University_Name := University_Name info; Country := country;
              City := city; Website := Website info |})
  \/ ((forall k v, In (k, v) table -> ~ substring k wiki_url)
      /\ apply_fallbacks table wiki_url info = info).
Proof.
  induction table as [|[key [country city]] table IH]; cbn [apply_fallbacks].
  - right. split; [intros k v [] | reflexivity].
  - destruct (contains key wiki_url) eqn:Hc.
    + left. exists [], key, country, city, table. repeat split.
      * now apply contains_iff.
      * intros k v [].
    + destruct IH as [(before & k1 & c1 & t1 & after & -> & Hsub & Hnone & Heq)
                     | [Hnone Heq]].
      * left. exists ((key, (country, city)) :: before), k1, c1, t1, after.
        repeat split; trivial.
        intros k v [[= <- <-] | Hin]; [now apply contains_false_iff | eauto].
      * right. split; trivial.
        intros k v [[= <- <-] | Hin]; [now apply contains_false_iff | eauto].
Qed.

(** C8, as the code has it.  A row of the infobox whose header holds
    "location" or "city" sets City to the first comma-separated segment of
    its text; it sets Country to the last segment when there are at least
    two segments, and leaves Country as it was when there is only one.  The
    fallback table is consulted exactly when Country is still the sentinel
    after the infobox has been read: the first key, in the order of the
    table, that is a substring of the reference URL gives Country and City. *)
Theorem location_and_fallback `{PyText} :
  (forall (info : uni_info) (row th td : node),
      Soup.find (u "th") row = Some th ->
      Soup.find (u "td") row = Some td ->
      contains (u "location") (str_lower (strip (Soup.text th)))
      || contains (u "city") (str_lower (strip (Soup.text th))) = true ->
      City (infobox_row info row)
      = strip (hd [] (split 44 (strip (Soup.text td))))
      /\ Country (infobox_row info row)
         = if 2 <=? length (split 44 (strip (Soup.text td)))
           then strip (last (split 44 (strip (Soup.text td))) [])
           else Country info)
  /\ (forall (internet : web) (wiki_url : pystr) (soup : node),
      get_soup internet wiki_url true = Some soup ->
      (Country (info_from_page soup) <> NA ->
       fetch_wiki_university_info internet wiki_url = Some (info_from_page soup))
      /\ (Country (info_from_page soup) = NA ->
          exists result,
            fetch_wiki_university_info internet wiki_url = Some result
            /\ University_Name result = University_Name (info_from_page soup)
            /\ Website result = Website (info_from_page soup)
            /\ ((exists before key country city after,
                    fallbacks = before ++ (key, (country, city)) :: after
                    /\ substring key wiki_url
                    /\ (forall k v, In (k, v) before -> ~ substring k wiki_url)
                    /\ Country result = country /\ City result = city)
                \/ ((forall k v, In (k, v) fallbacks -> ~ substring k wiki_url)
                    /\ result = info_from_page soup)))).
Proof.
  split.
  - intros info row th td Hth Htd Hloc. unfold infobox_row.
    rewrite Hth, Htd, Hloc.
    assert (Hset : City (set_location (Soup.text td) info)
                   = strip (hd [] (split 44 (strip (Soup.text td))))
                   /\ Country (set_location (Soup.text td) info)
                      = if 2 <=? length (split 44 (strip (Soup.text td)))
                        then strip (last (split 44 (strip (Soup.text td))) [])
                        else Country info).
    { unfold set_location, location_parts. cbn [City Country].
      rewrite hd_map_strip, length_map, last_map_strip. now split. }
    destruct (contains (u "website") _); [|exact Hset].
    destruct (set_website_keeps td (set_location (Soup.text td) info)) as [-> ->].
    exact Hset.
  - intros internet wiki_url soup Hsoup. unfold fetch_wiki_university_info.
    rewrite Hsoup. split.
    + intros Hfound. destruct (pystr_eqb _ NA) eqn:Heq; [|reflexivity].
      apply pystr_eqb_eq in Heq. contradiction.
    + intros Hnone. rewrite Hnone, pystr_eqb_refl.
      exists (apply_fallbacks fallbacks wiki_url (info_from_page soup)).
      split; [reflexivity|].
      destruct (apply_fallbacks_first fallbacks wiki_url (info_from_page soup))
        as [(before & key & country & city & after & Htab & Hsub & Hfirst & ->)
           | [Hno ->]].
      * repeat split. left. exists before, key, country, city, after.
        repeat split; trivial.
      * repeat split. right. now split.
Qed.

Lemma location_and_fallback_witness :
  (City (infobox_row (mkInfo NA NA NA NA) (location_row "Oxford, England"))
   = strip (hd [] (split 44 (strip (u "Oxford, England"))))
   /\ Country (infobox_row (mkInfo NA NA NA NA) (location_row "Oxford, England"))
      = if 2 <=? length (split 44 (strip (u "Oxford, England")))
        then strip (last (split 44 (strip (u "Oxford, England"))) [])
        else NA)
  /\ fetch_wiki_university_info
       (serving (u "https://en.wikipedia.org/wiki/University_of_Oxford")
                (wiki_page "University of Oxford" "Oxford, England"))
       (u "https://en.wikipedia.org/wiki/University_of_Oxford")
     = Some (info_from_page (wiki_page "University of Oxford" "Oxford, England")).
Proof.
  split.
  - apply (proj1 (@location_and_fallback basic_latin) (mkInfo NA NA NA NA)
                 (location_row "Oxford, England")
                 (Elem (u "th") [] [Text (u "Location")])
                 (Elem (u "td") [] [Text (u "Oxford, England")]));
      vm_compute; reflexivity.
  - apply (proj2 (@location_and_fallback basic_latin)
                 (serving (u "https://en.wikipedia.org/wiki/University_of_Oxford")
                          (wiki_page "University of Oxford" "Oxford, England"))
                 (u "https://en.wikipedia.org/wiki/University_of_Oxford")
                 (wiki_page "University of Oxford" "Oxford, England")).
    + vm_compute. reflexivity.
    + vm_compute. discriminate.
Defined.

Example oxford_two_segments :
  fetch_wiki_university_info
    (serving (u "https://en.wikipedia.org/wiki/University_of_Oxford")
             (wiki_page "University of Oxford" "Oxford, England"))
    (u "https://en.wikipedia.org/wiki/University_of_Oxford")
  = Some {| University_Name := u "University of Oxford";
            Country := u "England";
            City := u "Oxford";
            Website := u "Not Available" |}.
Proof. vm_compute. reflexivity. Qed.

(** C8, as stated, fails: for the one-segment location "Springfield" the
    claim makes Country the last segment, "Springfield"; the code leaves it
    the sentinel. *)
Lemma one_segment_location_leaves_country :
  fetch_wiki_university_info
    (serving (u "https://en.wikipedia.org/wiki/Example_Institute")
             (wiki_page "Example Institute" "Springfield"))
    (u "https://en.wikipedia.org/wiki/Example_Institute")
  = Some {| University_Name := u "Example Institute";
            Country := u "Not Available";
            City := u "Springfield";
            Website := u "Not Available" |}
  /\ last (split 44 (u "Springfield")) [] = u "Springfield"
  /\ u "Not Available" <> u "Springfield".
Proof. repeat split; vm_compute; congruence. Qed.

(** ** Batches of five *)

(** Every adapter returns exactly five records, whatever the network
    serves. *)
Lemma adapters_return_five `{PyText} (internet : web) :
  Forall (fun target => length (snd target) = 5) (targets internet).
Proof.
  unfold targets. repeat constructor; cbn [snd];
    apply pad_courses_length.
Qed.

(** A run without network: every reference page fails, the five
    universities all get the name "Not Available", one row is kept, and the
    check of [verify_data] fails on the file the run writes. *)
Example offline_run_breaks_integrity :
  length (Universities (main unreachable (numbered "id") None)) = 1
  /\ length (Courses (main unreachable (numbered "id") None)) = 25
  /\ length (invalid_relations (main unreachable (numbered "id") None)) = 20
  /\ relational_integrity (main unreachable (numbered "id") None) = false.
Proof. repeat split; vm_compute; reflexivity. Qed.

(** ** What the matcher returns *)

Section MatcherFacts.
Context `{PyText}.

Lemma app_chain (A : Type) (x y a b c : list A) :
  x = a ++ y -> y = b ++ c -> x = (a ++ b) ++ c.
Proof. intros -> ->. apply app_assoc. Qed.

Lemma app_chain3 (A : Type) (x y z a b c d : list A) :
  x = a ++ y -> y = b ++ z -> z = c ++ d -> x = a ++ b ++ c ++ d.
Proof. now intros -> -> ->. Qed.

Lemma firstn_consumed (A : Type) (y z b : list A) :
  y = b ++ z -> firstn (length y - length z) y = b.
Proof.
  intros ->. rewrite length_app, Nat.add_sub, firstn_app, Nat.sub_diag, firstn_all.
  cbn [firstn]. apply app_nil_r.
Qed.

Lemma one_sound (A : Type) (ok : N -> bool) (p : Re.pos)
      (k : Re.pos -> option A) (a : A) :
  Re.one ok p k = Some a ->
  exists d p', snd p = [d] ++ snd p' /\ ok d = true /\ k p' = Some a.
Proof.
  unfold Re.one. destruct (snd p) as [|d rest] eqn:Hp; [discriminate|].
  destruct (ok d) eqn:Hok; [|discriminate].
  intros Hk. exists d, (Some d, rest). now repeat split.
Qed.

(** Whatever the matcher consumes for [r] is a text of [r]. *)
Lemma rmatch_sound (A : Type) (r : Re.regex) :
  forall (p : Re.pos) (k : Re.pos -> option A) (a : A),
    Re.rmatch r p k = Some a ->
    exists w p', snd p = w ++ snd p' /\ re_lang r w /\ k p' = Some a.
Proof.
  induction r as [|c|items|items|r1 IH1 r2 IH2|r1 IH1 r2 IH2|lo hi r1 IH1|];
    intros p k a.
  - cbn [Re.rmatch]. intros Hk. now exists [], p.
  - cbn [Re.rmatch]. intros Hm.
    destruct (one_sound _ _ _ Hm) as (d & p' & Hsplit & Hok & Hk).
    exists [d], p'. repeat split; trivial. now exists d.
  - cbn [Re.rmatch]. intros Hm.
    destruct (one_sound _ _ _ Hm) as (d & p' & Hsplit & Hok & Hk).
    exists [d], p'. repeat split; trivial. now exists d.
  - cbn [Re.rmatch]. intros Hm.
    destruct (one_sound _ _ _ Hm) as (d & p' & Hsplit & Hok & Hk).
    exists [d], p'. repeat split; trivial. exists d. split; trivial.
    now apply negb_true_iff.
  - cbn [Re.rmatch]. intros Hm.
    destruct (IH1 _ _ _ Hm) as (w1 & p1 & Hs1 & Hw1 & Hm2).
    destruct (IH2 _ _ _ Hm2) as (w2 & p2 & Hs2 & Hw2 & Hk).
    exists (w1 ++ w2), p2. repeat split; trivial.
    + eapply app_chain; [exact Hs1 | exact Hs2].
    + now exists w1, w2.
  - cbn [Re.rmatch]. destruct (Re.rmatch r1 p k) as [a'|] eqn:Hm1.
    + intros [= ->]. destruct (IH1 _ _ _ Hm1) as (w & p' & Hs & Hw & Hk).
      exists w, p'. repeat split; trivial. now left.
    + intros Hm2. destruct (IH2 _ _ _ Hm2) as (w & p' & Hs & Hw & Hk).
      exists w, p'. repeat split; trivial. now right.
  - cbn [Re.rmatch].
    match goal with |- ?f (length (snd p)) 0 p = Some a -> _ => set (loop := f) end.
    assert (Hstop : forall count q b,
               (if lo <=? count then k q else None) = Some b ->
               exists ws q',
                 snd q = concat ws ++ snd q'
                 /\ Forall (re_lang r1) ws
                 /\ lo <= count + length ws
                 /\ match hi with
                    | Some h => count <= h -> count + length ws <= h
                    | None => True
                    end
                 /\ k q' = Some b).
    { intros count q b Hk. destruct (lo <=? count) eqn:Hlo; [|discriminate].
      apply Nat.leb_le in Hlo. exists [], q. cbn [concat app length].
      repeat split; trivial; try lia. destruct hi; trivial. lia. }
    assert (Hloop : forall rounds count q b,
               loop rounds count q = Some b ->
               exists ws q',
                 snd q = concat ws ++ snd q'
                 /\ Forall (re_lang r1) ws
                 /\ lo <= count + length ws
                 /\ match hi with
                    | Some h => count <= h -> count + length ws <= h
                    | None => True
                    end
                 /\ k q' = Some b).
    { induction rounds as [|rounds IH]; intros count q b.
      - apply Hstop.
      - unfold loop; cbn fix beta iota zeta; fold loop.
        destruct (Re.below hi count) eqn:Hbelow; [|apply Hstop].
        destruct (Re.rmatch r1 q _) as [b'|] eqn:Hb; [|apply Hstop].
        intros [= ->].
        destruct (IH1 _ _ _ Hb) as (w & q1 & Hsplit & Hw & Hnext).
        match type of Hnext with
        | (if ?c then _ else _) = _ => destruct c; [|discriminate Hnext]
        end.
        destruct (IH _ _ _ Hnext) as (ws & q' & Hsplit' & Hws & Hlo & Hhi & Hk).
        exists (w :: ws), q'. cbn [concat length]. repeat split; trivial.
        + eapply app_chain; [exact Hsplit | exact Hsplit'].
        + now constructor.
        + lia.
        + destruct hi as [h|]; trivial. cbn [Re.below] in Hbelow.
          apply Nat.ltb_lt in Hbelow. intros _. specialize (Hhi ltac:(lia)). lia. }
    intros Hm.
    destruct (Hloop _ _ _ _ Hm) as (ws & p' & Hs & Hws & Hlo & Hhi & Hk).
    exists (concat ws), p'. repeat split; trivial.
    exists ws. repeat split; trivial.
    destruct hi as [h|]; trivial. apply Hhi. lia.
  - cbn [Re.rmatch]. destruct (xorb _ _); [|discriminate].
    intros Hk. now exists [], p.
Qed.

(** The text of group 1 stands in the input between a text of the part
    before the group and a text of the part after it. *)
Lemma match_at_sound (pat : Re.pattern) (p : Re.pos) (g : pystr) :
  Re.match_at pat p = Some g ->
  exists w0 w3 rest,
    snd p = w0 ++ g ++ w3 ++ rest
    /\ re_lang (Re.before pat) w0
    /\ re_lang (Re.group1 pat) g
    /\ re_lang (Re.after pat) w3.
Proof.
  unfold Re.match_at. intros Hm.
  destruct (rmatch_sound _ _ _ Hm) as (w0 & p1 & Hs0 & Hw0 & Hm1).
  destruct (rmatch_sound _ _ _ Hm1) as (w1 & p2 & Hs1 & Hw1 & Hm2).
  destruct (rmatch_sound _ _ _ Hm2) as (w3 & p3 & Hs3 & Hw3 & Hg).
  erewrite firstn_consumed in Hg by exact Hs1. injection Hg as <-.
  exists w0, w3, (snd p3). repeat split; trivial.
  eapply app_chain3; [exact Hs0 | exact Hs1 | exact Hs3].
Qed.

Lemma search_from_sound (pat : Re.pattern) (rest : pystr) :
  forall (prev : option N) (g : pystr),
    Re.search_from pat prev rest = Some g ->
    exists skipped w0 w3 tail,
      rest = skipped ++ w0 ++ g ++ w3 ++ tail
      /\ re_lang (Re.before pat) w0
      /\ re_lang (Re.group1 pat) g
      /\ re_lang (Re.after pat) w3.
Proof.
  induction rest as [|c rest IH]; intros prev g; cbn [Re.search_from];
    match goal with
    | |- context [Re.match_at pat ?p] =>
      destruct (Re.match_at pat p) as [g'|] eqn:Hm
    end.
  - intros [= ->]. destruct (match_at_sound _ _ Hm) as (w0 & w3 & tail & Hs & Hl).
    exists [], w0, w3, tail. split; [exact Hs | exact Hl].
  - intros Hn; discriminate Hn.
  - intros [= ->]. destruct (match_at_sound _ _ Hm) as (w0 & w3 & tail & Hs & Hl).
    exists [], w0, w3, tail. split; [exact Hs | exact Hl].
  - intros Hnext.
    destruct (IH _ _ Hnext) as (skipped & w0 & w3 & tail & Hs & Hl).
    exists (c :: skipped), w0, w3, tail. split; [|exact Hl].
    cbn [app]. now rewrite Hs.
Qed.

Lemma first_match_sound (pats : list Re.pattern) (text g : pystr) :
  Re.first_match pats text = Some g ->
  exists pat skipped w0 w3 tail,
    In pat pats
    /\ text = skipped ++ w0 ++ g ++ w3 ++ tail
    /\ re_lang (Re.before pat) w0
    /\ re_lang (Re.group1 pat) g
    /\ re_lang (Re.after pat) w3.
Proof.
  induction pats as [|pat pats IH]; cbn [Re.first_match]; [discriminate|].
  destruct (Re.search pat text) as [g'|] eqn:Hs.
  - intros [= ->]. unfold Re.search in Hs.
    destruct (search_from_sound _ _ _ Hs) as (skipped & w0 & w3 & tail & Ht & Hl).
    exists pat, skipped, w0, w3, tail. split; [now left | now split].
  - intros Hm. destruct (IH Hm) as (pat' & skipped & w0 & w3 & tail & Hin & Hrest).
    exists pat', skipped, w0, w3, tail. split; [now right | exact Hrest].
Qed.

End MatcherFacts.

(** ** Values of the field extractor *)

Lemma option_map_some (A B : Type) (f : A -> B) (o : option A) (y : B) :
  option_map f o = Some y -> exists x, o = Some x /\ y = f x.
Proof. destruct o as [x|]; [|discriminate]. intros [= <-]. now exists x. Qed.

Section ExtractorFacts.
Context `{PyText}.

Lemma lstrip_suffix (s : pystr) : exists pre, s = pre ++ lstrip s.
Proof.
  induction s as [|c s [pre IH]]; [now exists []|].
  cbn [lstrip]. destruct (isspace c).
  - exists (c :: pre). cbn [app]. now rewrite <- IH.
  - now exists [].
Qed.

Lemma rstrip_prefix (s : pystr) : exists post, s = rstrip s ++ post.
Proof.
  unfold rstrip. destruct (lstrip_suffix (rev s)) as [pre Hpre].
  exists (rev pre). rewrite <- rev_app_distr, <- Hpre. symmetry. apply rev_involutive.
Qed.

Lemma strip_substring (s : pystr) : substring (strip s) s.
Proof.
  unfold strip. destruct (lstrip_suffix s) as [pre Hpre].
  destruct (rstrip_prefix (lstrip s)) as [post Hpost].
  exists pre, post. now rewrite <- Hpost.
Qed.

Lemma substring_trans (a b c : pystr) :
  substring a b -> substring b c -> substring a c.
Proof.
  intros (p1 & q1 & ->) (p2 & q2 & ->). exists (p2 ++ p1), (q1 ++ q2).
  now rewrite <- !app_assoc.
Qed.

Lemma firstn_substring (n : nat) (s : pystr) : substring (firstn n s) s.
Proof. exists [], (skipn n s). cbn [app]. symmetry. apply firstn_skipn. Qed.

Lemma first_match_substring (pats : list Re.pattern) (text g : pystr) :
  Re.first_match pats text = Some g -> substring g text.
Proof.
  intros Hm.
  destruct (first_match_sound _ _ Hm) as (pat & skipped & w0 & w3 & tail & _ & -> & _).
  exists (skipped ++ w0), (w3 ++ tail). now rewrite <- !app_assoc.
Qed.

(** What [extract_details_from_page] returns comes from the text of the
    body, when there is one. *)
Lemma details_of_page (soup : option node) :
  extract_details_from_page soup = no_details
  \/ exists page body,
       soup = Some page
       /\ Soup.find (u "body") page = Some body
       /\ extract_details_from_page soup
          = extract_details_from_text (Soup.get_text_strip (u " ") body).
Proof.
  destruct soup as [page|]; [|now left].
  cbn [extract_details_from_page].
  destruct (Soup.find (u "body") page) as [body|] eqn:Hb; [|now left].
  right. now exists page, body.
Qed.

(** X1.  The Fees and the Eligibility that [extract_details_from_page]
    returns are copied from the page: each is a substring of the text of
    the body, and the Eligibility has at most 150 characters. *)
Theorem fees_and_eligibility_from_page (soup : option node) :
  (forall f, found_Fees (extract_details_from_page soup) = Some f ->
     exists page body,
       soup = Some page /\ Soup.find (u "body") page = Some body
       /\ substring f (Soup.get_text_strip (u " ") body))
  /\ (forall e, found_Eligibility (extract_details_from_page soup) = Some e ->
     length e <= 150
     /\ exists page body,
       soup = Some page /\ Soup.find (u "body") page = Some body
       /\ substring e (Soup.get_text_strip (u " ") body)).
Proof.
  destruct (details_of_page soup) as [-> | (page & body & -> & Hb & ->)].
  - split; intros x Hx; discriminate Hx.
  - split.
    + intros f Hf. exists page, body. repeat split; trivial.
      cbn [extract_details_from_text found_Fees] in Hf.
      apply option_map_some in Hf. destruct Hf as (g & Hm & ->).
      eapply substring_trans; [apply strip_substring|].
      eapply first_match_substring, Hm.
    + intros e He.
      cbn [extract_details_from_text found_Eligibility] in He.
      apply option_map_some in He. destruct He as (g & Hm & ->).
      split; [apply firstn_le_length|].
      exists page, body. repeat split; trivial.
      eapply substring_trans; [apply firstn_substring|].
      eapply substring_trans; [apply strip_substring|].
      eapply first_match_substring, Hm.
Qed.

(** The heading that [extract_course_name] returns. *)
Lemma first_heading_bounds (tags : list pystr) (soup : node) (name : pystr) :
  first_heading tags soup = Some name ->
  5 < length name < 120 /\ ~ In 10%N name.
Proof.
  induction tags as [|tag tags IH]; cbn [first_heading]; [discriminate|].
  destruct (Soup.find tag soup) as [el|]; [|exact IH].
  destruct ((5 <? _) && (_ <? 120)) eqn:Hlen; [|exact IH].
  intros [= <-]. apply andb_true_iff in Hlen. destruct Hlen as [H5 H120].
  apply Nat.ltb_lt in H5, H120. split; [lia|].
  unfold replace_char. intros Hin. apply in_map_iff in Hin.
  destruct Hin as (c & Hc & _). destruct (N.eqb c 10) eqn:Hc10.
  - discriminate Hc.
  - apply N.eqb_neq in Hc10. congruence.
Qed.

(** X2.  A course name taken from a heading has between 6 and 119
    characters and holds no line break; a record of [scrape_course_page]
    whose name is not the fallback name has such a name. *)
Theorem course_name_bounds (internet : web) (url fallback_name : pystr)
        (verify : bool) :
  (forall soup name, extract_course_name soup = Some name ->
     5 < length name < 120 /\ ~ In 10%N name)
  /\ (Course_Name (scrape_course_page internet url fallback_name verify)
      = fallback_name
      \/ (5 < length (Course_Name (scrape_course_page internet url fallback_name
                                                      verify)) < 120
          /\ ~ In 10%N (Course_Name (scrape_course_page internet url
                                                        fallback_name verify)))).
Proof.
  assert (Hname : forall soup name, extract_course_name soup = Some name ->
                    5 < length name < 120 /\ ~ In 10%N name).
  { intros [soup|] name; cbn [extract_course_name]; [|discriminate].
    apply first_heading_bounds. }
  split; [exact Hname|].
  unfold scrape_course_page.
  destruct (get_soup internet url verify) as [soup|]; [|now left].
  cbn [Course_Name default_course].
  destruct (extract_course_name (Some soup)) as [page_name|] eqn:He; [|now left].
  destruct (truthy page_name); [|now left].
  right. now apply (Hname (Some soup)).
Qed.

End ExtractorFacts.

Section AmountFacts.
Context `{PyText}.

Lemma singles_run (P : N -> Prop) (ws : list pystr) :
  Forall (fun w => exists d, w = [d] /\ P d) ws ->
  length (concat ws) = length ws /\ Forall P (concat ws).
Proof.
  induction 1 as [|w ws (d & -> & Hd) _ [IHlen IHall]]; [now split|].
  cbn [concat app length]. split; [now rewrite IHlen | now constructor].
Qed.

(** A repetition of a character class consumes a run of its characters. *)
Lemma class_run (lo : nat) (hi : option nat) (items : list Re.item) (w : pystr) :
  re_lang (Re.Rep lo hi (Re.In items)) w ->
  lo <= length w /\ Forall (fun c => Re.in_class items c = true) w.
Proof.
  cbn [re_lang]. intros (ws & -> & Hlo & _ & Hall).
  destruct (singles_run (fun c => Re.in_class items c = true) Hall) as [Hlen Hrun].
  split; [now rewrite Hlen | exact Hrun].
Qed.

Lemma optional_text (r : Re.regex) (w : pystr) :
  re_lang (Re.opt r) w -> w = [] \/ re_lang r w.
Proof.
  unfold Re.opt. cbn [re_lang]. intros (ws & -> & _ & Hhi & Hall).
  destruct ws as [|w1 [|w2 ws]]; cbn [length] in Hhi; try lia.
  - now left.
  - right. cbn [concat]. rewrite app_nil_r. now inversion Hall.
Qed.

(** The texts of [[£$€₹]\s*[\d,]{3,}(?:\.\d+)?]. *)
Lemma amount_shape (g : pystr) :
  re_lang Patterns.amount g ->
  exists sym blanks body decimals,
    g = sym :: blanks ++ body ++ decimals
    /\ Re.in_class (Re.chars "£$€₹") sym = true
    /\ Forall (fun c => Re.in_class [Re.Space] c = true) blanks
    /\ 3 <= length body
    /\ Forall (fun c => Re.in_class [Re.Digit; Re.Chr 44] c = true) body
    /\ (decimals = []
        \/ exists dot ds,
             decimals = dot :: ds /\ re_ieq 46 dot = true /\ 1 <= length ds
             /\ Forall (fun c => Re.in_class [Re.Digit] c = true) ds).
Proof.
  unfold Patterns.amount. cbn [Re.seq].
  intros (w1 & r1 & -> & (sym & -> & Hsym) & w2 & r2 & -> & Hblanks
          & w3 & w4 & -> & Hbody & Hdec).
  apply class_run in Hblanks. destruct Hblanks as [_ Hblanks].
  apply class_run in Hbody. destruct Hbody as [Hlen Hbody].
  exists sym, w2, w3, w4. repeat split; trivial.
  apply optional_text in Hdec. destruct Hdec as [-> | Hdec]; [now left|].
  right. destruct Hdec as (wd & ds & -> & (dot & -> & Hdot) & Hds).
  apply class_run in Hds. destruct Hds as [Hn Hds].
  exists dot, ds. now repeat split.
Qed.

Lemma fee_patterns_group (pat : Re.pattern) :
  In pat Patterns.fee_patterns -> Re.group1 pat = Patterns.amount.
Proof. intros [<- | [<- | [<- | []]]]; reflexivity. Qed.

Lemma lstrip_head (c : N) (s : pystr) : isspace c = false -> lstrip (c :: s) = c :: s.
Proof. intros Hc. cbn [lstrip]. now rewrite Hc. Qed.


(** Stripping changes nothing between two characters that are not blank. *)
Lemma strip_between (c e : N) (mid : pystr) :
  isspace c = false -> isspace e = false ->
  strip (c :: mid ++ [e]) = c :: mid ++ [e].
Proof.
  intros Hc He. unfold strip, rstrip. rewrite lstrip_head by exact Hc.
  assert (Hrev : rev (c :: mid ++ [e]) = e :: rev mid ++ [c])
    by (cbn [rev]; rewrite rev_app_distr; reflexivity).
  rewrite Hrev, lstrip_head by exact He. rewrite <- Hrev. apply rev_involutive.
Qed.


End AmountFacts.

(** *** With the characters of Basic Latin *)

Lemma latin_ieq_fixed (p c : N) :
  (p < 65 \/ 122 < p)%N ->
  N.eqb (Latin.lower p) (Latin.lower c) = true -> c = p.
Proof.
  intros Hp Heq. apply N.eqb_eq in Heq. revert Heq.
  unfold Latin.lower, Latin.is_upper.
  destruct (N.leb_spec 65 p), (N.leb_spec p 90), (N.leb_spec 65 c),
    (N.leb_spec c 90); cbn [andb]; lia.
Qed.

Lemma latin_symbol (c : N) :
  Re.in_class (Re.chars "£$€₹") c = true -> In c (u "£$€₹").
Proof.
  change (Re.chars "£$€₹")
    with [Re.Chr 163; Re.Chr 36; Re.Chr 8364; Re.Chr 8377].
  change (u "£$€₹") with [163; 36; 8364; 8377]%N.
  cbn [Re.in_class existsb Re.item_matches re_ieq basic_latin].
  rewrite !orb_true_iff. intros [Hc | [Hc | [Hc | [Hc | Hc]]]];
    try discriminate Hc;
    apply latin_ieq_fixed in Hc; try lia; subst c; cbn [In]; auto.
Qed.

Lemma latin_blank (c : N) :
  Re.in_class [Re.Space] c = true -> Latin.space c = true.
Proof.
  cbn [Re.in_class existsb Re.item_matches isspace basic_latin].
  now rewrite orb_false_r.
Qed.

Lemma latin_digit (c : N) :
  Re.in_class [Re.Digit] c = true -> Latin.is_digit c = true.
Proof.
  cbn [Re.in_class existsb Re.item_matches re_digit basic_latin].
  now rewrite orb_false_r.
Qed.

Lemma latin_digit_or_comma (c : N) :
  Re.in_class [Re.Digit; Re.Chr 44] c = true ->
  Latin.is_digit c = true \/ c = 44%N.
Proof.
  cbn [Re.in_class existsb Re.item_matches re_digit re_ieq basic_latin].
  rewrite !orb_true_iff. intros [Hc | [Hc | Hc]]; [now left | | discriminate Hc].
  right. apply latin_ieq_fixed in Hc; [exact Hc | lia].
Qed.

Lemma latin_digit_not_space (c : N) :
  Latin.is_digit c = true \/ c = 44%N -> Latin.space c = false.
Proof.
  unfold Latin.is_digit, Latin.space. intros [Hd | ->]; [|reflexivity].
  apply andb_true_iff in Hd. destruct Hd as [H1 H2].
  apply N.leb_le in H1, H2.
  assert (Hlist : existsb (N.eqb c)
                    [133; 160; 5760; 8232; 8233; 8239; 8287; 12288]%N = false).
  { apply existsb_false_iff. intros x Hx. apply N.eqb_neq.
    cbn [In] in Hx. lia. }
  rewrite Hlist.
  destruct (N.leb_spec 9 c), (N.leb_spec c 13), (N.leb_spec 28 c),
    (N.leb_spec c 32), (N.leb_spec 8192 c), (N.leb_spec c 8202);
    cbn [andb orb]; try reflexivity; lia.
Qed.

Lemma latin_symbol_not_space (c : N) : In c (u "£$€₹") -> Latin.space c = false.
Proof.
  change (u "£$€₹") with [163; 36; 8364; 8377]%N. cbn [In].
  intros [<- | [<- | [<- | [<- | []]]]]; reflexivity.
Qed.

Lemma latin_amount (g : pystr) :
  re_lang Patterns.amount g -> amount_like g /\ strip g = g.
Proof.
  intros Hg. apply amount_shape in Hg.
  destruct Hg as (sym & blanks & body & decimals & -> & Hsym & Hblanks & Hlen
                  & Hbody & Hdec).
  apply latin_symbol in Hsym.
  assert (Hbody' : Forall (fun c => Latin.is_digit c = true \/ c = 44%N) body).
  { eapply Forall_impl; [|exact Hbody]. apply latin_digit_or_comma. }
  assert (Hdec' : decimals = []
                  \/ exists ds, decimals = 46%N :: ds /\ 1 <= length ds
                                /\ Forall (fun c => Latin.is_digit c = true) ds).
  { destruct Hdec as [-> | (dot & ds & -> & Hdot & Hn & Hds)]; [now left|].
    right. exists ds. cbn [re_ieq basic_latin] in Hdot.
    apply latin_ieq_fixed in Hdot; [|lia]. subst dot. repeat split; trivial.
    eapply Forall_impl; [|exact Hds]. apply latin_digit. }
  split.
  - exists sym, blanks, body, decimals. repeat split; trivial.
    eapply Forall_impl; [|exact Hblanks]. apply latin_blank.
  - assert (Hend : exists mid e, blanks ++ body ++ decimals = mid ++ [e]
                                 /\ Latin.space e = false).
    { destruct Hdec' as [-> | (ds & -> & Hn & Hds)].
      - destruct (exists_last (l := body)) as (body' & e & ->).
        { intros ->. cbn [length] in Hlen. lia. }
        exists (blanks ++ body'), e. split.
        + now rewrite app_nil_r, app_assoc.
        + apply latin_digit_not_space. rewrite Forall_forall in Hbody'.
          apply Hbody'. apply in_or_app. right. now left.
      - destruct (exists_last (l := ds)) as (ds' & e & ->).
        { intros ->. cbn [length] in Hn. lia. }
        exists (blanks ++ body ++ 46%N :: ds'), e. split.
        + rewrite <- !app_assoc. reflexivity.
        + apply latin_digit_not_space. left. rewrite Forall_forall in Hds.
          apply Hds. apply in_or_app. right. now left. }
    destruct Hend as (mid & e & -> & He).
    apply (@strip_between basic_latin); [now apply latin_symbol_not_space | exact He].
Qed.


Lemma latin_fees_text (text f : pystr) :
  found_Fees (extract_details_from_text text) = Some f ->
  amount_like f /\ substring f text.
Proof.
  cbn [extract_details_from_text found_Fees]. intros Hf.
  apply option_map_some in Hf. destruct Hf as (g & Hm & ->).
  destruct (first_match_sound _ _ Hm)
    as (pat & skipped & w0 & w3 & tail & Hin & _ & _ & Hg & _).
  rewrite (fee_patterns_group Hin) in Hg.
  destruct (latin_amount Hg) as [Hshape Hstrip]. rewrite Hstrip.
  split; [exact Hshape | eapply first_match_substring, Hm].
Qed.

(** X4.  A page whose body text holds none of the symbols £ $ € ₹ gets no
    Fees. *)
Theorem no_symbol_no_fees (page body : node) :
  Soup.find (u "body") page = Some body ->
  (forall c, In c (u "£$€₹") -> ~ In c (Soup.get_text_strip (u " ") body)) ->
  found_Fees (extract_details_from_page (Some page)) = None.
Proof.
  intros Hb Hnone. cbn [extract_details_from_page]. rewrite Hb.
  destruct (found_Fees _) as [f|] eqn:Hf; [|reflexivity].
  exfalso. apply latin_fees_text in Hf.
  destruct Hf as [(sym & blanks & body' & decimals & -> & Hsym & _) (pre & post & Htext)].
  apply (Hnone sym Hsym). rewrite Htext. apply in_or_app. right. now left.
Qed.

Lemma no_symbol_no_fees_witness :
  found_Fees (extract_details_from_page (Some hamdard_school)) = None.
Proof.
  apply (@no_symbol_no_fees hamdard_school
           (Elem (u "body") []
                 [Elem (u "ul") [] [Elem (u "li") [] [Text (u "Diploma in Pharmacy")]]])).
  - reflexivity.
  - intros c Hc Hin. vm_compute in Hc, Hin.
    repeat (destruct Hc as [<- | Hc];
            [repeat (destruct Hin as [Hin | Hin]; [discriminate Hin|]); exact Hin|]).
    exact Hc.
Defined.





(** X6.  No page gets the Level "Bachelor's" from
    [extract_details_from_page]: the title-casing of the matched word puts
    the letter after an apostrophe in upper case. *)
Theorem page_level_never_bachelors (soup : option node) :
  found_Level (extract_details_from_page soup) <> Some (u "Bachelor's").
Proof.
  destruct (details_of_page soup) as [-> | (page & body & -> & Hb & ->)].
  - discriminate.
  - apply level_never_bachelors.
Qed.

(** ** The rows of a run *)










(** ** What the merge keeps *)

Lemma drop_duplicates_from (row : Type) (same : row -> row -> bool)
      (df : list row) :
  Forall (fun r => In r df) (drop_duplicates same df).
Proof.
  apply Forall_forall. intros r. apply drop_duplicates_incl.
Qed.



(** The row kept for a key of the new batch is a row of the new batch. *)
Lemma last_in_new (row : Type) (same : row -> row -> bool)
      (old new : list row) (r : row) :
  (forall a, same a a = true) ->
  In r new -> In (last (filter (same r) (old ++ new)) r) new.
Proof.
  intros Hrefl Hin. rewrite filter_app.
  destruct (filter (same r) new) as [|x xs] eqn:Hf.
  - rewrite filter_nil_iff in Hf. specialize (Hf r Hin).
    rewrite Hrefl in Hf. discriminate Hf.
  - assert (Hx : In (last (filter (same r) old ++ x :: xs) r) (x :: xs)).
    { destruct (exists_last (l := x :: xs)) as (l' & e & He); [discriminate|].
      rewrite He, app_assoc, last_last. apply in_or_app. right. now left. }
    rewrite <- Hf in Hx |- *. apply filter_In in Hx. apply Hx.
Qed.

(** X9.  A row of the new batch is never replaced by a prior row: for every
    new university row, the one row kept with its name is a row of the new
    batch, and likewise for every new course row and its pair
    (course_name, university_id). *)
Theorem new_rows_win (old new : dataset) :
  Forall (fun r =>
            exists kept,
              In kept (Universities new)
              /\ filter (same_university_name r)
                        (drop_duplicates same_university_name
                                         (Universities old ++ Universities new))
                 = [kept])
         (Universities new)
  /\ Forall (fun r =>
               exists kept,
                 In kept (Courses new)
                 /\ filter (same_course r)
                           (drop_duplicates same_course
                                            (Courses old ++ Courses new))
                    = [kept])
            (Courses new).
Proof.
  split; apply Forall_forall; intros r Hr.
  - exists (last (filter (same_university_name r)
                         (Universities old ++ Universities new)) r).
    split.
    + apply last_in_new; [apply same_university_name_refl | exact Hr].
    + apply drop_duplicates_keeps_last.
      * apply same_university_name_refl.
      * apply same_university_name_sym.
      * apply same_university_name_trans.
      * apply in_or_app. now right.
  - exists (last (filter (same_course r) (Courses old ++ Courses new)) r).
    split.
    + apply last_in_new; [apply same_course_refl | exact Hr].
    + apply drop_duplicates_keeps_last.
      * apply same_course_refl.
      * apply same_course_sym.
      * apply same_course_trans.
      * apply in_or_app. now right.
Qed.

(** ** The verification script *)


Lemma row_eqb_nth (i : nat) :
  forall a b, row_eqb a b = true -> cell_eqb (nth i a None) (nth i b None) = true.
Proof.
  induction i as [|i IH]; intros [|x a] [|y b]; cbn [row_eqb nth];
    try discriminate; try reflexivity;
    rewrite andb_true_iff; intros [Hxy Hab]; [exact Hxy | now apply IH].
Qed.

(** Rows that differ in one column are not duplicates of each other. *)
Lemma unique_column_no_duplicates (i : nat) (rest : list (list cell)) :
  forall seen,
    is_unique (map (fun r => nth i r None) rest) = true ->
    (forall r s, In r rest -> In s seen ->
                 cell_eqb (nth i r None) (nth i s None) = false) ->
    duplicated_sum seen rest = 0.
Proof.
  induction rest as [|r rest IH]; intros seen Huniq Hseen; [reflexivity|].
  cbn [duplicated_sum]. cbn [map is_unique] in Huniq.
  apply andb_true_iff in Huniq. destruct Huniq as [Hr Huniq].
  apply negb_true_iff in Hr. rewrite existsb_false_iff in Hr.
  assert (Hnew : existsb (row_eqb r) seen = false).
  { apply existsb_false_iff. intros s Hs.
    destruct (row_eqb r s) eqn:Heq; [|reflexivity].
    apply (row_eqb_nth i) in Heq. rewrite Hseen in Heq; [discriminate Heq | | exact Hs].
    now left. }
  rewrite Hnew. cbn [Nat.add]. apply IH; [exact Huniq|].
  intros r' s Hr' [<- | Hs].
  - rewrite cell_eqb_sym. apply Hr. apply in_map_iff. now exists r'.
  - apply Hseen; [now right | exact Hs].
Qed.

Lemma column_no_duplicates (name : pystr) (df : frame) (cells : list cell) :
  column name df = Some cells -> is_unique cells = true ->
  duplicated_sum [] (rows df) = 0.
Proof.
  unfold column. destruct (index_of name (columns df)) as [i|]; [|discriminate].
  cbn [option_map]. intros [= <-] Huniq.
  apply (unique_column_no_duplicates i); [exact Huniq | intros r s _ []].
Qed.

(** X10.  [verify_data] never stops on its two "Duplicate entries"
    assertions, whatever the file holds: when they are reached the
    identifier columns have been found unique, and rows with different
    identifiers are not duplicates. *)
Theorem verify_never_reports_duplicates (file : option workbook) :
  verify_data file <> Failed Duplicate_Universities
  /\ verify_data file <> Failed Duplicate_Courses.
Proof.
  unfold verify_data.
  destruct file as [xls|]; [|split; discriminate].
  destruct (sheet (u "Universities") xls) as [df_uni|]; [|split; discriminate].
  destruct (sheet (u "Courses") xls) as [df_courses|]; [|split; discriminate].
  destruct (column (u "university_id") df_uni) as [uni_ids|] eqn:Hu;
    [|split; discriminate].
  destruct (is_unique uni_ids) eqn:Huu; cbn [negb]; [|split; discriminate].
  destruct (column (u "course_id") df_courses) as [course_ids|] eqn:Hc;
    [|split; discriminate].
  destruct (is_unique course_ids) eqn:Hcu; cbn [negb]; [|split; discriminate].
  rewrite (column_no_duplicates _ _ Hu Huu), (column_no_duplicates _ _ Hc Hcu).
  cbn [Nat.eqb negb].
  destruct (has_columns expected_uni_cols df_uni); cbn [negb];
    [|split; discriminate].
  destruct (has_columns expected_course_cols df_courses); cbn [negb];
    [|split; discriminate].
  destruct (column (u "university_id") df_courses); [|split; discriminate].
  cbv zeta. destruct (Nat.eqb _ 0); split; discriminate.
Qed.




(** ** A first run and its verification *)



Lemma NoDup_app_incl (A : Type) (x y y' : list A) :
  NoDup (x ++ y) -> NoDup y' -> incl y' y -> NoDup (x ++ y').
Proof.
  intros Hxy Hy' Hincl. induction x as [|a x IH]; [exact Hy'|].
  cbn [app] in *. inversion Hxy as [|? ? Hnotin Hnd]; subst.
  constructor; [|now apply IH].
  intros Hin. apply Hnotin. apply in_app_or in Hin. apply in_or_app.
  destruct Hin as [Hin | Hin]; [now left | right; now apply Hincl].
Qed.









(** ** More on the resolver *)

Section ResolverFacts.
Context `{PyText}.

Lemma infobox_row_name (info : uni_info) (row : node) :
  University_Name (infobox_row info row) = University_Name info.
Proof.
  unfold infobox_row.
  destruct (Soup.find (u "th") row) as [th|]; [|reflexivity].
  destruct (Soup.find (u "td") row) as [td|]; [|reflexivity].
  destruct (_ || _), (contains (u "website") _); reflexivity.
Qed.

Lemma infobox_rows_name (rows : list node) :
  forall info, University_Name (fold_left infobox_row rows info)
               = University_Name info.
Proof.
  induction rows as [|row rows IH]; intros info; [reflexivity|].
  cbn [fold_left]. now rewrite IH, infobox_row_name.
Qed.

Lemma apply_fallbacks_name (table : list (pystr * (pystr * pystr)))
      (wiki_url : pystr) (info : uni_info) :
  University_Name (apply_fallbacks table wiki_url info) = University_Name info
  /\ Website (apply_fallbacks table wiki_url info) = Website info.
Proof.
  induction table as [|[key [country city]] table IH]; cbn [apply_fallbacks];
    [now split|].
  destruct (contains key wiki_url); [now split | exact IH].
Qed.

(** X13.  The name that [fetch_wiki_university_info] returns is the text
    of the heading with id "firstHeading", stripped, or the sentinel when
    the page has no such heading: neither the infobox nor the fallback
    table changes it.  A failed fetch returns the empty result. *)
Theorem resolver_name (internet : web) (wiki_url : pystr) :
  match get_soup internet wiki_url true with
  | Some soup =>
    option_map University_Name (fetch_wiki_university_info internet wiki_url)
    = Some match Soup.find_id (u "h1") (u "firstHeading") soup with
           | Some title => strip (Soup.text title)
           | None => NA
           end
  | None => fetch_wiki_university_info internet wiki_url = None
  end.
Proof.
  unfold fetch_wiki_university_info.
  destruct (get_soup internet wiki_url true) as [soup|]; [|reflexivity].
  cbn [option_map]. f_equal.
  assert (Hname : University_Name (info_from_page soup)
                  = match Soup.find_id (u "h1") (u "firstHeading") soup with
                    | Some title => strip (Soup.text title)
                    | None => NA
                    end).
  { unfold info_from_page.
    destruct (Soup.find_class (u "table") (u "infobox") soup); [|reflexivity].
    now rewrite infobox_rows_name. }
  destruct (pystr_eqb _ NA); [|exact Hname].
  now rewrite (proj1 (apply_fallbacks_name _ _ _)).
Qed.

(** X14.  For each of the five reference pages of [main], the resolver
    returns a Country that is not the sentinel whenever the page is
    fetched: the key of a fallback entry occurs in each of the five URLs. *)
Theorem targets_have_country (internet : web) :
  Forall (fun target =>
            match fetch_wiki_university_info internet (fst target) with
            | Some info => Country info <> NA
            | None => True
            end) (targets internet).
Proof.
  assert (Hone : forall wiki_url,
             (forall info, Country (apply_fallbacks fallbacks wiki_url info) <> NA) ->
             match fetch_wiki_university_info internet wiki_url with
             | Some info => Country info <> NA
             | None => True
             end).
  { intros wiki_url Hfb. unfold fetch_wiki_university_info.
    destruct (get_soup internet wiki_url true) as [soup|]; [|exact I].
    destruct (pystr_eqb (Country (info_from_page soup)) NA) eqn:Heq; [apply Hfb|].
    intros Hna. rewrite Hna, pystr_eqb_refl in Heq. discriminate Heq. }
  unfold targets. repeat constructor; cbn [fst]; apply Hone; intros info;
    vm_compute; discriminate.
Qed.

End ResolverFacts.

(** ** More on the classifier *)

(** X15.  [guess_discipline] returns "General" or one of the labels of the
    table, whatever the name. *)
Theorem guess_discipline_range `{PyText} (name : pystr) :
  In (guess_discipline name) (u "General" :: map snd discipline_map).
Proof.
  unfold guess_discipline.
  destruct (first_keyword discipline_map (str_lower name)) as [label|] eqn:Hf;
    [|now left].
  right. destruct (first_keyword_some _ _ Hf) as (before & keyword & after & -> & _).
  rewrite map_app. apply in_or_app. right. now left.
Qed.




(** ** More on the batches *)

(** X17.  Padding a padded batch changes nothing, whatever the label; a
    batch of five is returned as it is. *)
Theorem pad_courses_idempotent (courses : list course) (label label' : pystr) :
  pad_courses (pad_courses courses label) label' = pad_courses courses label
  /\ (length courses = 5 -> pad_courses courses label = courses).
Proof.
  split.
  - destruct courses as [|c1 [|c2 [|c3 [|c4 [|c5 rest]]]]]; reflexivity.
  - destruct courses as [|c1 [|c2 [|c3 [|c4 [|c5 [|c6 rest]]]]]];
      cbn [length]; intros Hlen; try lia; reflexivity.
Qed.

Lemma pad_courses_idempotent_witness :
  pad_courses oxford_batch (u "Oxford") = oxford_batch.
Proof.
  apply (proj2 (pad_courses_idempotent oxford_batch (u "Oxford") (u "Oxford"))).
  reflexivity.
Defined.

Section LinkFacts.
Context `{PyText}.
Variable internet : web.

Lemma scrape_course_page_name (url fallback_name : pystr) (verify : bool) :
  3 <= length fallback_name ->
  3 <= length (Course_Name (scrape_course_page internet url fallback_name verify)).
Proof.
  intros Hfb. unfold scrape_course_page.
  destruct (get_soup internet url verify) as [soup|]; [|exact Hfb].
  cbn [Course_Name default_course].
  destruct (extract_course_name (Some soup)) as [page_name|] eqn:He; [|exact Hfb].
  destruct (truthy page_name); [|exact Hfb].
  cbn [extract_course_name] in He. apply first_heading_bounds in He. lia.
Qed.

Lemma scrape_links_bounds (base_url : pystr) (verify : bool) (max_courses : nat)
      (links : list node) :
  forall courses seen_urls,
    length courses <= max_courses ->
    Forall (fun c => 3 <= length (Course_Name c)) courses ->
    length (scrape_links internet base_url verify max_courses links courses seen_urls)
    <= max_courses
    /\ Forall (fun c => 3 <= length (Course_Name c))
              (scrape_links internet base_url verify max_courses links courses
                            seen_urls).
Proof.
  induction links as [|link links IH]; intros courses seen_urls Hlen Hnames;
    cbn [scrape_links]; [now split|].
  destruct (max_courses <=? length courses) eqn:Hmax; [now split|].
  apply Nat.leb_gt in Hmax. cbv zeta.
  destruct (negb _ || (length (Soup.get_text_strip [] link) <? 3)) eqn:Hskip;
    [now apply IH|].
  apply orb_false_iff in Hskip. destruct Hskip as [_ Htext].
  apply Nat.ltb_ge in Htext.
  destruct (existsb _ seen_urls); [now apply IH|].
  apply IH.
  - rewrite length_app. cbn [length]. lia.
  - apply Forall_app. split; [exact Hnames|].
    constructor; [|constructor]. now apply scrape_course_page_name.
Qed.

(** X18.  [discover_and_scrape] returns at most [max_courses] records, and
    the Course Name of each has at least 3 characters. *)
Theorem discover_and_scrape_bounds (listing_url link_part : pystr)
        (base_url : option pystr) (verify : bool) (max_courses : nat) :
  length (discover_and_scrape internet listing_url link_part base_url verify
                              max_courses) <= max_courses
  /\ Forall (fun c => 3 <= length (Course_Name c))
            (discover_and_scrape internet listing_url link_part base_url verify
                                 max_courses).
Proof.
  unfold discover_and_scrape.
  destruct (get_soup internet listing_url verify) as [soup|].
  - apply scrape_links_bounds; [cbn [length]; lia | constructor].
  - split; [cbn [length]; lia | constructor].
Qed.

End LinkFacts.

(** ** More on the adapters *)

Lemma pad_courses_forall (P : course -> Prop) (courses : list course)
      (label : pystr) :
  Forall P courses -> (forall n, P (placeholder label n)) ->
  Forall P (pad_courses courses label).
Proof.
  intros Hall Hph.
  destruct courses as [|c1 [|c2 [|c3 [|c4 [|c5 rest]]]]];
    repeat match goal with
           | Hc : Forall P (_ :: _) |- _ =>
             inversion Hc; subst; clear Hc
           end;
    cbv [pad_courses pad_while]; cbn [length Nat.ltb Nat.leb app firstn];
    repeat constructor; auto.
Qed.

Section AdapterFacts.
Context `{PyText}.
Variable internet : web.

Lemma hamdard_level_in (text_lower : pystr) :
  In (hamdard_level text_lower) hamdard_levels.
Proof.
  unfold hamdard_level, hamdard_levels.
  destruct (any_in _ text_lower); [now left|].
  destruct (contains _ text_lower); [right; now left | right; right; now left].
Qed.

Lemma hamdard_scan_ok (page_details : details) (tags : list node) :
  forall courses, hamdard_ok courses ->
                  hamdard_ok (hamdard_scan page_details tags courses).
Proof.
  induction tags as [|tag tags IH]; intros courses Hok; cbn [hamdard_scan];
    [exact Hok|].
  destruct (5 <=? length courses) eqn:Hfull; [exact Hok|].
  apply Nat.leb_gt in Hfull. cbv zeta.
  set (text := Soup.get_text_strip [] tag).
  destruct ((5 <? length text) && (length text <? 80)
            && any_in course_keywords (str_lower text)) eqn:Hmatch;
    [|now apply IH].
  destruct (any_in skip_keywords (str_lower text)); [now apply IH|].
  destruct (negb (existsb (fun c => pystr_eqb (Course_Name c) text) courses))
    eqn:Hnew; [|now apply IH].
  apply IH. destruct Hok as (Hlen & Hnd & Hall).
  apply andb_true_iff in Hmatch. destruct Hmatch as [Hmatch _].
  apply andb_true_iff in Hmatch. destruct Hmatch as [H5 H80].
  apply Nat.ltb_lt in H5, H80.
  apply negb_true_iff in Hnew. rewrite existsb_false_iff in Hnew.
  repeat split.
  - rewrite length_app. cbn [length]. lia.
  - rewrite map_app. cbn [map hamdard_course Course_Name].
    apply NoDup_app_incl with (y := [text]) (x := map Course_Name courses).
    + rewrite <- (rev_involutive (map Course_Name courses ++ [text])).
      apply NoDup_rev. rewrite rev_app_distr. cbn [rev app].
      constructor; [|now apply NoDup_rev].
      intros Hin. apply in_rev in Hin. apply in_map_iff in Hin.
      destruct Hin as (c & Hc & Hin). specialize (Hnew c Hin).
      rewrite Hc, pystr_eqb_refl in Hnew. discriminate Hnew.
    + repeat constructor. intros [].
    + intros x Hx. exact Hx.
  - apply Forall_app. split; [exact Hall|].
    constructor; [|constructor]. cbn [hamdard_course Level Course_Name].
    split; [apply hamdard_level_in | fold text; lia].
Qed.

Lemma hamdard_schools_ok (school_links : list (pystr * pystr)) :
  forall courses, hamdard_ok courses ->
                  hamdard_ok (hamdard_schools internet school_links courses).
Proof.
  induction school_links as [|[url name] links IH]; intros courses Hok;
    cbn [hamdard_schools]; [exact Hok|].
  destruct (5 <=? length courses); [exact Hok|].
  destruct (get_soup internet url false) as [soup|]; [|now apply IH].
  apply IH. now apply hamdard_scan_ok.
Qed.

(** X19.  The records that the Jamia Hamdard adapter collects from the
    school pages are at most five, have pairwise different names of 6 to 79
    characters, and have one of the levels "Master's", "Doctoral",
    "Bachelor's"; no record of the batch it returns has the level
    "Diploma". *)
Theorem hamdard_records (school_links : list (pystr * pystr)) :
  length (hamdard_schools internet school_links []) <= 5
  /\ NoDup (map Course_Name (hamdard_schools internet school_links []))
  /\ Forall (fun c => In (Level c) [u "Master's"; u "Doctoral"; u "Bachelor's"]
                      /\ 5 < length (Course_Name c) < 80)
            (hamdard_schools internet school_links [])
  /\ Forall (fun c => Level c <> u "Diploma")
            (extract_courses_jamia_hamdard internet).
Proof.
  assert (Hempty : hamdard_ok []).
  { repeat split; [cbn [length]; lia | constructor | constructor]. }
  assert (Hok : forall links, hamdard_ok (hamdard_schools internet links [])).
  { intros links. now apply hamdard_schools_ok. }
  destruct (Hok school_links) as (Hlen & Hnd & Hall).
  repeat split; trivial.
  unfold extract_courses_jamia_hamdard. apply pad_courses_forall.
  - match goal with |- Forall _ (hamdard_schools _ ?l _) =>
      destruct (Hok l) as (_ & _ & Hall') end.
    eapply Forall_impl; [|exact Hall'].
    intros c [Hlevel _] Hd. rewrite Hd in Hlevel.
    vm_compute in Hlevel. intuition discriminate.
  - intros n. cbn [placeholder Level]. vm_compute. discriminate.
Qed.

End AdapterFacts.

Section MoreAdapterFacts.
Context `{PyText}.
Variable internet : web.

Lemma NoDup_snoc (A : Type) (l : list A) (x : A) :
  NoDup l -> ~ In x l -> NoDup (l ++ [x]).
Proof.
  intros Hnd Hx. rewrite <- (rev_involutive (l ++ [x])). apply NoDup_rev.
  rewrite rev_app_distr. cbn [rev app]. constructor; [|now apply NoDup_rev].
  intros Hin. apply Hx. now apply in_rev.
Qed.

(** *** JMI *)

Lemma jmi_scan_ok (tags : list node) :
  forall courses seen,
    length courses < 5 ->
    (forall c, In c courses -> In (Course_Name c) seen) ->
    NoDup (map Course_Name courses) ->
    Forall jmi_scanned courses ->
    length (jmi_scan tags courses seen) <= 5
    /\ NoDup (map Course_Name (jmi_scan tags courses seen))
    /\ Forall jmi_scanned (jmi_scan tags courses seen).
Proof.
  induction tags as [|tag tags IH]; intros courses seen Hlen Hseen Hnd Hall;
    cbn [jmi_scan]; [repeat split; trivial; lia|].
  set (text := Soup.get_text_strip [] tag). cbv zeta.
  destruct ((length text <? 8) || (100 <? length text)) eqn:Hsize;
    [now apply IH|].
  apply orb_false_iff in Hsize. destruct Hsize as [H8 H100].
  apply Nat.ltb_ge in H8, H100.
  destruct (any_in programme_keywords (str_lower text)) eqn:Hkw; [|now apply IH].
  destruct (negb (existsb (pystr_eqb text) seen)) eqn:Hfresh.
  - apply negb_true_iff in Hfresh. rewrite existsb_false_iff in Hfresh.
    assert (Hnotin : ~ In text (map Course_Name courses)).
    { intros Hin. apply in_map_iff in Hin. destruct Hin as (c & Hc & Hin).
      specialize (Hfresh _ (Hseen c Hin)). rewrite Hc, pystr_eqb_refl in Hfresh.
      discriminate Hfresh. }
    assert (Hnd' : NoDup (map Course_Name (courses ++ [jmi_course text (str_lower text)]))).
    { rewrite map_app. cbn [map jmi_course Course_Name]. now apply NoDup_snoc. }
    assert (Hall' : Forall jmi_scanned (courses ++ [jmi_course text (str_lower text)])).
    { apply Forall_app. split; [exact Hall|]. constructor; [|constructor].
      unfold jmi_scanned. cbn [jmi_course Level Course_Name Fees Eligibility].
      repeat split; trivial. }
    assert (Hlen' : length (courses ++ [jmi_course text (str_lower text)])
                    = S (length courses))
      by (rewrite length_app; cbn [length]; lia).
    destruct (5 <=? length (courses ++ [jmi_course text (str_lower text)])) eqn:Hfull.
    + repeat split; trivial. lia.
    + apply Nat.leb_gt in Hfull. apply IH; trivial.
      intros c Hc. apply in_app_or in Hc. destruct Hc as [Hc | [<- | []]].
      * right. now apply Hseen.
      * now left.
  - destruct (5 <=? length courses) eqn:Hfull; [apply Nat.leb_le in Hfull; lia|].
    now apply IH.
Qed.

(** X20.  The scan of the JMI page collects at most five records with
    pairwise different names; each has a name of 8 to 100 characters that
    holds a programme keyword, the level given by the order master, PhD,
    diploma, bachelor, and the sentinel as Fees and Eligibility. *)
Theorem jmi_scan_records (tags : list node) :
  length (jmi_scan tags [] []) <= 5
  /\ NoDup (map Course_Name (jmi_scan tags [] []))
  /\ Forall (fun c =>
               Level c = jmi_level (str_lower (Course_Name c))
               /\ 8 <= length (Course_Name c) <= 100
               /\ any_in programme_keywords (str_lower (Course_Name c)) = true
               /\ Fees c = NA /\ Eligibility c = NA)
            (jmi_scan tags [] []).
Proof.
  apply jmi_scan_ok.
  - cbn [length]. lia.
  - intros c [].
  - constructor.
  - constructor.
Qed.

(** *** Harvard *)

Lemma harvard_links_ok (anchors : list node) :
  forall state, Forall concentration_like (fst state) ->
                Forall concentration_like (fst (harvard_links anchors state)).
Proof.
  induction anchors as [|a anchors IH]; intros state Hall; cbn [harvard_links];
    [exact Hall|].
  set (title := strip (get_or [] (Soup.attr (u "title") a))). cbv zeta.
  destruct ((length title <? 5) || (60 <? length title)) eqn:Hsize;
    [now apply IH|].
  apply orb_false_iff in Hsize. destruct Hsize as [H5 H60].
  apply Nat.ltb_ge in H5, H60.
  destruct (_ && _ && _); [|now apply IH].
  apply IH. cbn [fst]. apply Forall_app. split; [exact Hall|].
  constructor; [|constructor].
  unfold concentration_like, concentration. cbn [Level Duration Course_Name Discipline].
  repeat split. exists title. repeat split; trivial.
Qed.

Lemma harvard_items_ok (items : list node) :
  forall state, Forall concentration_like (fst state) ->
                Forall concentration_like (fst (harvard_items items state)).
Proof.
  induction items as [|li items IH]; intros state Hall; cbn [harvard_items];
    [exact Hall|].
  destruct (5 <=? length (fst state)); [exact Hall|].
  apply IH. now apply harvard_links_ok.
Qed.

Lemma harvard_lists_ok (lists : list node) :
  forall state, Forall concentration_like (fst state) ->
                Forall concentration_like (fst (harvard_lists lists state)).
Proof.
  induction lists as [|ul lists IH]; intros state Hall; cbn [harvard_lists];
    [exact Hall|].
  destruct (5 <=? length (fst state)); [exact Hall|].
  apply IH. now apply harvard_items_ok.
Qed.

Lemma with_fees_ok (fees : pystr) (c : course) :
  concentration_like c -> concentration_like (with_fees fees c).
Proof. intros Hc. exact Hc. Qed.

(** X21.  Every record of the Harvard adapter is a concentration, named
    "Concentration in <title>" for a title of 5 to 60 characters, with the
    level "Bachelor's", the duration "4 Years" and the discipline guessed
    from the title, or is a placeholder. *)
Theorem harvard_records :
  Forall (fun c =>
            (Level c = u "Bachelor's" /\ Duration c = u "4 Years"
             /\ exists title,
                  Course_Name c = u "Concentration in " ++ title
                  /\ 5 <= length title <= 60
                  /\ Discipline c = guess_discipline title)
            \/ exists n, c = placeholder (u "Harvard") n)
         (extract_courses_harvard internet).
Proof.
  unfold extract_courses_harvard. cbv zeta.
  apply pad_courses_forall; [|intros n; right; now exists n].
  assert (Hreal : Forall concentration_like
            match get_soup internet (u "https://en.wikipedia.org/wiki/Harvard_College")
                           true with
            | Some wiki_soup =>
              fst (harvard_lists (Soup.find_all [u "ul"] wiki_soup) ([], []))
            | None => []
            end).
  { destruct (get_soup internet (u "https://en.wikipedia.org/wiki/Harvard_College") true);
      [|constructor].
    apply harvard_lists_ok. constructor. }
  assert (Hfees : forall fees cs, Forall concentration_like cs ->
                                  Forall concentration_like (map (with_fees fees) cs)).
  { intros fees cs Hcs. apply Forall_forall. intros c Hc. apply in_map_iff in Hc.
    destruct Hc as (c0 & <- & Hc0). apply with_fees_ok.
    rewrite Forall_forall in Hcs. now apply Hcs. }
  eapply Forall_impl; [intros c Hc; left; exact Hc|].
  destruct (get_soup internet
              (u "https://college.harvard.edu/financial-aid/how-aid-works/cost-attendance")
              true) as [fee_soup|]; [|exact Hreal].
  destruct (found_Fees (extract_details_from_page (Some fee_soup)));
    [now apply Hfees | exact Hreal].
Qed.

(** *** Cambridge *)

Lemma scrape_course_page_long_name (url fallback_name : pystr) (verify : bool) :
  5 < length fallback_name ->
  5 < length (Course_Name (scrape_course_page internet url fallback_name verify)).
Proof.
  intros Hfb. unfold scrape_course_page.
  destruct (get_soup internet url verify) as [soup|]; [|exact Hfb].
  cbn [Course_Name default_course].
  destruct (extract_course_name (Some soup)) as [page_name|] eqn:He; [|exact Hfb].
  destruct (truthy page_name); [|exact Hfb].
  cbn [extract_course_name] in He. apply first_heading_bounds in He. lia.
Qed.

Lemma cambridge_scan_ok (anchors : list node) :
  forall courses,
    length courses <= 5 ->
    NoDup (map fst courses) ->
    Forall (fun c => 5 < length (Course_Name (snd c))) courses ->
    length (cambridge_scan internet anchors courses) <= 5
    /\ NoDup (map fst (cambridge_scan internet anchors courses))
    /\ Forall (fun c => 5 < length (Course_Name (snd c)))
              (cambridge_scan internet anchors courses).
Proof.
  induction anchors as [|a anchors IH]; intros courses Hlen Hnd Hall;
    cbn [cambridge_scan]; [now repeat split|].
  destruct (5 <=? length courses) eqn:Hfull; [now repeat split|].
  apply Nat.leb_gt in Hfull. cbv zeta.
  set (href := get_or [] (Soup.attr (u "href") a)).
  set (text := Soup.get_text_strip [] a).
  destruct (contains (u "/courses/") href && (5 <? length text) && _) eqn:Hkeep;
    [|now apply IH].
  apply andb_true_iff in Hkeep. destruct Hkeep as [Hkeep _].
  apply andb_true_iff in Hkeep. destruct Hkeep as [_ Htext].
  apply Nat.ltb_lt in Htext.
  set (full_url := if startswith href (u "http") then href
                   else urljoin cambridge_listing href).
  destruct (negb (existsb (fun c => pystr_eqb (fst c) full_url) courses)) eqn:Hnew;
    [|now apply IH].
  apply negb_true_iff in Hnew. rewrite existsb_false_iff in Hnew.
  apply IH.
  - rewrite length_app. cbn [length]. lia.
  - rewrite map_app. cbn [map fst]. apply NoDup_snoc; [exact Hnd|].
    intros Hin. apply in_map_iff in Hin. destruct Hin as (c & Hc & Hin).
    specialize (Hnew c Hin). rewrite Hc, pystr_eqb_refl in Hnew. discriminate Hnew.
  - apply Forall_app. split; [exact Hall|]. constructor; [|constructor].
    cbn [snd]. now apply scrape_course_page_long_name.
Qed.

(** X22.  The Cambridge adapter scrapes at most five course pages, no URL
    twice, and every record of its batch has a Course Name of more than 5
    characters. *)
Theorem cambridge_records (anchors : list node) :
  length (cambridge_scan internet anchors []) <= 5
  /\ NoDup (map fst (cambridge_scan internet anchors []))
  /\ Forall (fun c => 5 < length (Course_Name c))
            (extract_courses_cambridge internet).
Proof.
  assert (Hok : forall anchors,
             length (cambridge_scan internet anchors []) <= 5
             /\ NoDup (map fst (cambridge_scan internet anchors []))
             /\ Forall (fun c => 5 < length (Course_Name (snd c)))
                       (cambridge_scan internet anchors [])).
  { intros l. apply cambridge_scan_ok; [cbn [length]; lia | constructor | constructor]. }
  destruct (Hok anchors) as (Hlen & Hnd & _). repeat split; trivial.
  unfold extract_courses_cambridge. cbv zeta. apply pad_courses_forall.
  - destruct (get_soup internet cambridge_listing true) as [soup|]; [|constructor].
    destruct (Hok (Soup.find_all_with (u "a") (u "href") soup)) as (_ & _ & Hall).
    apply Forall_forall. intros c Hc. apply in_map_iff in Hc.
    destruct Hc as (uc & <- & Huc). rewrite Forall_forall in Hall. now apply Hall.
  - intros n. cbn [placeholder Course_Name]. rewrite !length_app.
    change (length (u "Cambridge")) with 9. lia.
Qed.

End MoreAdapterFacts.

(** ** The theorems above on the fixed pages *)

Lemma fees_and_eligibility_from_page_witness :
  exists page body,
    Some bsc_page = Some page /\ Soup.find (u "body") page = Some body
    /\ substring (u "£15,000") (Soup.get_text_strip (u " ") body).
Proof.
  apply (proj1 (@fees_and_eligibility_from_page basic_latin (Some bsc_page))).
  vm_compute. reflexivity.
Defined.

Lemma course_name_bounds_witness :
  5 < length (u "BSc Computer Science") < 120
  /\ ~ In 10%N (u "BSc Computer Science").
Proof.
  apply (proj1 (@course_name_bounds basic_latin unreachable [] [] true)
               (Some bsc_page)).
  vm_compute. reflexivity.
Defined.
